(** * zustand-api-client: the generic store factory and the HTTP wrapper

    A shallow embedding of [src/zustand.ts] (the generic CRUD store built on a
    zustand container) and of the wrapper [apiClient] it calls.

    - JavaScript values are an inductive type [Val]; a zustand state object is
      a finite map from field names to fields ([gmap string Field]), where a
      field is either data or one of the store's functions.
    - An [async] function body is a tree of instructions ([Prog]): merging a
      partial state ([set]), reading the state ([get]), awaiting a call of the
      wrapper, awaiting a call [get().name(...)] of a function held by the
      state. [try_catch] is the [try { } catch { }] statement.
    - [exec] runs such a body against a backend that decides how every wrapper
      call settles, and records what happened in a trace. One run is one
      action from its call to the settling of its promise; actions that
      overlap on one store are outside the model.
    - [src/api.ts] is not among the sources: for the store, [apiClient] is a
      backend; the wrapper itself ([ApiClient]) follows the specification and
      [src/api.test.ts].
    - [String(v)] can throw, and a number is printed by the runtime: the
      conversion is a partial function over a [NumberPrinter]. *)

From Stdlib Require Import ZArith String List.
From stdpp Require Import gmap strings list fin_maps pretty.

Import ListNotations.
Local Open Scope string_scope.
Local Open Scope list_scope.
Local Open Scope Z_scope.

(** ** JavaScript values *)

(** Plain data: what a parsed response body, a payload, a thrown value or a
    data field of the state can be. Numbers are the integers ([number] is used
    for page numbers, counts and ids). [VErr name message] is an object for
    which [instanceof Error] holds. *)
#[warnings="-register-all"]
Inductive Val : Type :=
| VUndefined
| VNull
| VBool (b : bool)
| VNum (n : Z)
| VStr (s : string)
| VArr (elements : list Val)
| VObj (fields : list (string * Val))
| VErr (name message : string).

(** The five actions of [GenericActions<T>]. *)
Inductive ActionType : Type := FetchAll | FetchOne | Create | Update | Remove.

Definition action_name (a : ActionType) : string :=
  match a with
  | FetchAll => "fetchAll"
  | FetchOne => "fetchOne"
  | Create => "create"
  | Update => "update"
  | Remove => "remove"
  end.

(** A function either completes with a value or throws. *)
Inductive Completion (A : Type) : Type :=
| Normal (a : A)
| Abrupt (e : Val).
Arguments Normal {A} a.
Arguments Abrupt {A} e.

(** [Number.prototype.toString] of the runtime, on the numbers that are
    integers. What is known of it: an integer of magnitude below 2^53 is
    printed with all its decimal digits. Larger numbers are printed in a
    rounded or exponent form that the model leaves to the runtime. *)
Class NumberPrinter : Type := {
  Number_toString : Z -> string;
  Number_toString_safe :
    forall n, Z.abs n < 2 ^ 53 -> Number_toString n = pretty n
}.

Definition all_actions : list ActionType :=
  [FetchAll; FetchOne; Create; Update; Remove].

Global Instance ActionType_eq_dec : EqDecision ActionType.
Proof. solve_decision. Defined.

(** A function held by the state: one of the store's own actions, or a
    function that the caller's [extendStore] returned, known by its name. *)
Inductive Fn : Type :=
| Base (a : ActionType)
| Ext (name : string).

(** A field of the state object. *)
Inductive Field : Type :=
| Data (v : Val)
| Func (f : Fn).

(** [typeof x === 'function'] and [x === undefined] for the result of a
    property read on the state ([None]: the state has no such key). *)
Definition is_function (x : option Field) : bool :=
  match x with
  | Some (Func _) => true
  | _ => false
  end.

Definition is_undefined (x : option Field) : bool :=
  match x with
  | None | Some (Data VUndefined) => true
  | _ => false
  end.

(** Truthiness, as [||] and [? :] test it. *)
Definition truthy (v : Val) : bool :=
  match v with
  | VUndefined | VNull => false
  | VBool b => b
  | VNum n => negb (n =? 0)
  | VStr s => negb (String.eqb s "")
  | VArr _ | VObj _ | VErr _ _ => true
  end.

(** [a || b] *)
Definition or_else (a b : Val) : Val := if truthy a then a else b.

Fixpoint assoc (key : string) (fields : list (string * Val)) : Val :=
  match fields with
  | [] => VUndefined
  | (k, v) :: rest => if String.eqb k key then v else assoc key rest
  end.

Definition str_length (s : string) : Z := Z.of_nat (String.length s).

(** [v.key]; [None] stands for the TypeError of reading a property of
    [undefined] or [null]. *)
Definition member (v : Val) (key : string) : option Val :=
  match v with
  | VUndefined | VNull => None
  | VObj fields => Some (assoc key fields)
  | VArr l =>
      Some (if String.eqb key "length" then VNum (Z.of_nat (length l)) else VUndefined)
  | VStr s =>
      Some (if String.eqb key "length" then VNum (str_length s) else VUndefined)
  | VErr name message =>
      Some (if String.eqb key "message" then VStr message
            else if String.eqb key "name" then VStr name
            else VUndefined)
  | VBool _ | VNum _ => Some VUndefined
  end.

Fixpoint join (sep : string) (l : list string) : string :=
  match l with
  | [] => ""
  | [s] => s
  | s :: rest => s +:+ sep +:+ join sep rest
  end.

Definition TypeError (message : string) : Val := VErr "TypeError" message.

(** An object has the own property [key]. *)
Fixpoint has_key (key : string) (fields : list (string * Val)) : bool :=
  match fields with
  | [] => false
  | (k, _) :: rest => String.eqb k key || has_key key rest
  end.

(** The TypeError of converting an object that has no callable [toString]
    and no [valueOf] that returns a primitive. *)
Definition cannot_convert : Val :=
  TypeError "Cannot convert object to primitive value".

(** The strings of the elements of an array, converted from left to right
    by [f]; the first conversion that throws ends it. *)
Definition all_strings (f : Val -> Completion string)
  : list Val -> Completion (list string) :=
  fix go (l : list Val) : Completion (list string) :=
    match l with
    | [] => Normal []
    | x :: rest =>
        match f x with
        | Abrupt e => Abrupt e
        | Normal s =>
            match go rest with
            | Abrupt e => Abrupt e
            | Normal others => Normal (s :: others)
            end
        end
    end.

(** [String(v)], also the conversion of a template literal's holes.
    An object is converted by its [toString] method. A plain object with no
    own [toString] inherits the one that gives ["[object Object]"]. An own
    [toString] property is data here and cannot be called, and neither an
    own [valueOf] nor the inherited one ends the conversion: [String]
    throws. An array joins the strings of its elements, the empty string
    for [undefined] and [null], and throws if one of them does. *)
Fixpoint js_String `{NumberPrinter} (v : Val) : Completion string :=
  match v with
  | VUndefined => Normal "undefined"
  | VNull => Normal "null"
  | VBool true => Normal "true"
  | VBool false => Normal "false"
  | VNum n => Normal (Number_toString n)
  | VStr s => Normal s
  | VArr l =>
      match all_strings (fun x => match x with
                                  | VUndefined | VNull => Normal ""
                                  | _ => js_String x
                                  end) l with
      | Abrupt e => Abrupt e
      | Normal strings => Normal (join "," strings)
      end
  | VObj fields =>
      if has_key "toString" fields then Abrupt cannot_convert
      else Normal "[object Object]"
  | VErr name message =>
      Normal (if String.eqb name "" then message
              else if String.eqb message "" then name
              else name +:+ ": " +:+ message)
  end.

(** [error instanceof Error ? error : new Error(String(error))] *)
Definition normalize_error `{NumberPrinter} (error : Val) : Completion Val :=
  match error with
  | VErr _ _ => Normal error
  | _ =>
      match js_String error with
      | Normal s => Normal (VErr "Error" s)
      | Abrupt e => Abrupt e
      end
  end.

Definition instanceof_Error (v : Val) : bool :=
  match v with
  | VErr _ _ => true
  | _ => false
  end.

(** ** Wrapper calls and instruction trees *)

(** The four verbs of [apiClient] that the store uses. *)
Inductive Verb : Type := GET | POST | PUT | DELETE.

(** One call [apiClient.verb(url, ...rest)]. *)
Record Request : Type := mkRequest {
  verb : Verb;
  url : string;
  rest : list Val
}.

(** How a promise settles. *)
Inductive Outcome : Type :=
| Resolved (v : Val)
| Rejected (e : Val).

(** The body of an [async] function. *)
Inductive Prog : Type :=
| Return (v : Val)
| Throw (e : Val)
| SetState (partial : gmap string Field) (k : Prog)
| GetState (k : gmap string Field -> Prog)
| Call (r : Request) (k : Outcome -> Prog)
| Invoke (name : string) (args : list Val) (k : Outcome -> Prog).

(** [try { body } catch (error) { handler }], for a [try] statement that is
    the last statement of its function. *)
Fixpoint try_catch (body : Prog) (handler : Val -> Prog) : Prog :=
  match body with
  | Return v => Return v
  | Throw e => handler e
  | SetState partial k => SetState partial (try_catch k handler)
  | GetState k => GetState (fun s => try_catch (k s) handler)
  | Call r k => Call r (fun o => try_catch (k o) handler)
  | Invoke name args k => Invoke name args (fun o => try_catch (k o) handler)
  end.

(** [await]: a rejection is thrown where the promise is awaited. *)
Definition settle (k : Val -> Prog) (o : Outcome) : Prog :=
  match o with
  | Resolved v => k v
  | Rejected e => Throw e
  end.

(** [const x = await apiClient.verb(url, ...rest); k x] *)
Definition await_call (v : Verb) (u : string) (r : list Val) (k : Val -> Prog) : Prog :=
  Call (mkRequest v u r) (settle k).

(** [const x = await get().name(...args); k x] *)
Definition await_invoke (name : string) (args : list Val) (k : Val -> Prog) : Prog :=
  Invoke name args (settle k).

(** ** The store of [createGenericStore] *)

Definition initial_meta : Val :=
  VObj [("currentPage", VNum 1); ("totalPages", VNum 1); ("totalCount", VNum 0)].

(** The object literal's generic state. *)
Definition generic_state : gmap string Field :=
  {[ "items" := Data (VArr []);
     "item" := Data VNull;
     "loading" := Data (VBool false);
     "error" := Data VNull;
     "meta" := Data initial_meta ]}.

(** The object literal's generic actions. *)
Definition generic_actions : gmap string Field :=
  {[ "fetchAll" := Func (Base FetchAll);
     "fetchOne" := Func (Base FetchOne);
     "create" := Func (Base Create);
     "update" := Func (Base Update);
     "remove" := Func (Base Remove) ]}.

(** [{ loading: true, error: null }] *)
Definition loading_started : gmap string Field :=
  {[ "loading" := Data (VBool true); "error" := Data VNull ]}.

(** [{ loading: false }] *)
Definition loading_done : gmap string Field :=
  {[ "loading" := Data (VBool false) ]}.

(** [{ error: err, loading: false }], for the error object [err] that
    [error instanceof Error ? error : new Error(String(error))] gave. *)
Definition failed (err : Val) : gmap string Field :=
  {[ "error" := Data err; "loading" := Data (VBool false) ]}.

(** [objects ? objects.length : 0] *)
Definition length_or_zero (objects : Val) : Val :=
  if truthy objects
  then match member objects "length" with
       | Some n => n
       | None => VUndefined
       end
  else VNum 0.

(** [{ items: data.objects || [],
       meta: { currentPage: data.current_page || 1,
               totalPages: data.num_pages || 1,
               totalCount: data.total_count || (data.objects ? data.objects.length : 0) },
       loading: false }], given the four properties read from [data]. *)
Definition fetched (objects current_page num_pages total_count : Val)
  : gmap string Field :=
  {[ "items" := Data (or_else objects (VArr []));
     "meta" := Data (VObj [("currentPage", or_else current_page (VNum 1));
                           ("totalPages", or_else num_pages (VNum 1));
                           ("totalCount", or_else total_count (length_or_zero objects))]);
     "loading" := Data (VBool false) ]}.

Definition nullish (v : Val) : bool :=
  match v with
  | VUndefined | VNull => true
  | _ => false
  end.

(** The TypeError of [v.key] for a nullish [v]. *)
Definition cannot_read (v : Val) (key : string) : Val :=
  TypeError ("Cannot read properties of " +:+
             match v with VNull => "null" | _ => "undefined" end +:+
             " (reading '" +:+ key +:+ "')").

(** [const x = v.key; k x] *)
Definition dot (v : Val) (key : string) (k : Val -> Prog) : Prog :=
  match member v key with
  | Some x => k x
  | None => Throw (cannot_read v key)
  end.

(** The [catch] block that all five actions share:
    [set({ error: error instanceof Error ? error : new Error(String(error)),
           loading: false })].
    The object is built before [set] is called: if [String(error)] throws,
    nothing is merged and the error leaves the function. *)
Definition on_error `{NumberPrinter} (error : Val) : Prog :=
  match normalize_error error with
  | Normal err => SetState (failed err) (Return VUndefined)
  | Abrupt e => Throw e
  end.

(** [`${endpoint}/${id}`] *)
Definition item_path `{NumberPrinter} (endpoint : string) (id : Val)
  : Completion string :=
  match js_String id with
  | Normal s => Normal (endpoint +:+ "/" +:+ s)
  | Abrupt e => Abrupt e
  end.

(** [const path = `${endpoint}/${id}`; k path] *)
Definition template `{NumberPrinter} (endpoint : string) (id : Val)
    (k : string -> Prog) : Prog :=
  match item_path endpoint id with
  | Normal path => k path
  | Abrupt e => Throw e
  end.

(** The type [string | number] of an id. *)
Definition is_id (v : Val) : bool :=
  match v with
  | VStr _ | VNum _ => true
  | _ => false
  end.

(** What the second argument of [createGenericStore] can be when the call is
    made: nothing, a function (known by the object it returns), or some other
    JavaScript value. *)
Inductive ExtendArg : Type :=
| Omitted
| Callback (extension : gmap string Field)
| NonFunction (v : Val).

(** [createGenericStore(endpoint, extendStore)]: the state that zustand's
    [create] gets from the initializer
    [{ ...generic state, ...generic actions,
       ...(extendStore ? extendStore(set, get) : defaultExtend(set, get)) }].
    Later properties of an object literal replace earlier ones of the same
    name. Calling a value that is not a function throws. *)
Definition createGenericStore (endpoint : string) (extendStore : ExtendArg)
  : Completion (gmap string Field) :=
  match extendStore with
  | Omitted => Normal (∅ ∪ (generic_actions ∪ generic_state))
  | Callback extension => Normal (extension ∪ (generic_actions ∪ generic_state))
  | NonFunction v =>
      if truthy v
      then Abrupt (TypeError "extendStore is not a function")
      else Normal (∅ ∪ (generic_actions ∪ generic_state))
  end.

(** The n-th argument of a call; a missing argument is [undefined]. *)
Definition arg (n : nat) (args : list Val) : Val := nth n args VUndefined.

(** [params = {}]: the default of [fetchAll]'s parameter. *)
Definition default_params (params : Val) : Val :=
  match params with
  | VUndefined => VObj []
  | _ => params
  end.

(** An options object [{ actions: [...] }], as the specification describes
    the factory's second argument. *)
Definition options_object (actions : list ActionType) : Val :=
  VObj [("actions", VArr (map (fun a => VStr (action_name a)) actions))].

(** The state has a function for every selected action and [undefined] for
    every other one. *)
Definition exactly_selected (actions : list ActionType) (state : gmap string Field)
  : Prop :=
  forall a, if decide (a ∈ actions)
            then is_function (state !! action_name a) = true
            else is_undefined (state !! action_name a) = true.

Section Store.

Context `{printer : NumberPrinter}.
Variable endpoint : string.

(** [fetchAll: async (params = {}) => ...] *)
Definition fetchAll (params : Val) : Prog :=
  let params := default_params params in
  SetState loading_started
    (try_catch
       (await_call GET endpoint [params] (fun data =>
        dot data "objects" (fun objects =>
        dot data "current_page" (fun current_page =>
        dot data "num_pages" (fun num_pages =>
        dot data "total_count" (fun total_count =>
        SetState (fetched objects current_page num_pages total_count)
          (Return VUndefined)))))))
       on_error).

(** [fetchOne: async (id) => ...] *)
Definition fetchOne (id : Val) : Prog :=
  SetState loading_started
    (try_catch
       (template endpoint id (fun path =>
        await_call GET path [] (fun data =>
        SetState {[ "item" := Data data; "loading" := Data (VBool false) ]}
          (Return VUndefined))))
       on_error).

(** [create: async (payload) => ...] *)
Definition create (payload : Val) : Prog :=
  SetState loading_started
    (try_catch
       (await_call POST endpoint [payload] (fun createdData =>
        SetState loading_done
          (await_invoke "fetchAll" [] (fun _ =>
           Return createdData))))
       on_error).

(** [update: async (id, payload) => ...] *)
Definition update (id payload : Val) : Prog :=
  SetState loading_started
    (try_catch
       (template endpoint id (fun path =>
        await_call PUT path [payload] (fun updatedData =>
        SetState loading_done
          (await_invoke "fetchAll" [] (fun _ =>
           Return updatedData)))))
       on_error).

(** [remove: async (id) => ...] *)
Definition remove (id : Val) : Prog :=
  SetState loading_started
    (try_catch
       (template endpoint id (fun path =>
        await_call DELETE path [] (fun _ =>
        SetState loading_done
          (await_invoke "fetchAll" [] (fun _ =>
           Return VUndefined)))))
       on_error).

(** The wrapper call that the action [a] makes first; the TypeError of the
    path's template if the id cannot be converted, in which case the action
    makes no call. *)
Definition primary_request (a : ActionType) (args : list Val)
  : Completion Request :=
  match a with
  | FetchAll => Normal (mkRequest GET endpoint [default_params (arg 0 args)])
  | Create => Normal (mkRequest POST endpoint [arg 0 args])
  | FetchOne =>
      match item_path endpoint (arg 0 args) with
      | Normal path => Normal (mkRequest GET path [])
      | Abrupt e => Abrupt e
      end
  | Update =>
      match item_path endpoint (arg 0 args) with
      | Normal path => Normal (mkRequest PUT path [arg 1 args])
      | Abrupt e => Abrupt e
      end
  | Remove =>
      match item_path endpoint (arg 0 args) with
      | Normal path => Normal (mkRequest DELETE path [])
      | Abrupt e => Abrupt e
      end
  end.

(** Calling the action [a] of this store with [args]. *)
Definition action (a : ActionType) (args : list Val) : Prog :=
  match a with
  | FetchAll => fetchAll (arg 0 args)
  | FetchOne => fetchOne (arg 0 args)
  | Create => create (arg 0 args)
  | Update => update (arg 0 args) (arg 1 args)
  | Remove => remove (arg 0 args)
  end.

End Store.

(** ** Running an action *)

(** What an observer of one run can see, in the order it happens.
    [EvCall r pending]: the wrapper call [r] starts and the function is
    suspended; [pending] is the state of the store while the call is in
    flight. [EvSettle r o]: the call [r] settled with [o] and the function
    resumes. [EvInvoke name args s]: the function [get().name], read from the
    state [s], is called with [args]. *)
Inductive Event : Type :=
| EvSet (partial : gmap string Field)
| EvCall (r : Request) (pending : gmap string Field)
| EvSettle (r : Request) (o : Outcome)
| EvInvoke (name : string) (args : list Val) (s : gmap string Field).

Record World : Type := mkWorld {
  store : gmap string Field;
  calls : list Request;
  trace : list Event
}.

(** zustand's [set(partial)]: [Object.assign({}, state, partial)]. *)
Definition set_state (partial : gmap string Field) (w : World) : World :=
  mkWorld (partial ∪ store w) (calls w) (trace w ++ [EvSet partial]).

Definition start_call (r : Request) (o : Outcome) (w : World) : World :=
  mkWorld (store w) (calls w ++ [r]) (trace w ++ [EvCall r (store w); EvSettle r o]).

Definition note_invoke (name : string) (args : list Val) (w : World) : World :=
  mkWorld (store w) (calls w) (trace w ++ [EvInvoke name args (store w)]).

Definition not_a_function (name : string) : Val :=
  TypeError ("get(...)." +:+ name +:+ " is not a function").

Section Run.

Context `{printer : NumberPrinter}.
Variable endpoint : string.

(** The bodies of the functions that the caller's extension put into the
    state, by name. *)
Variable extension_body : string -> list Val -> Prog.

(** The wrapper as the store sees it: how a call settles, given the calls
    made before it. *)
Variable backend : list Request -> Request -> Outcome.

(** The body that a call of the field [f] runs; [None] when [f] is not a
    function. *)
Definition callee (f : option Field) (args : list Val) : option Prog :=
  match f with
  | Some (Func (Base a)) => Some (action endpoint a args)
  | Some (Func (Ext name)) => Some (extension_body name args)
  | Some (Data _) | None => None
  end.

(** [exec fuel p w] runs [p] to its end. Each nested function call uses one
    unit of [fuel]; [None] means that the fuel did not suffice. *)
Fixpoint exec (fuel : nat) : Prog -> World -> option (Outcome * World) :=
  fix go (p : Prog) (w : World) {struct p} : option (Outcome * World) :=
    match p with
    | Return v => Some (Resolved v, w)
    | Throw e => Some (Rejected e, w)
    | SetState partial k => go k (set_state partial w)
    | GetState k => go (k (store w)) w
    | Call r k =>
        let o := backend (calls w) r in
        go (k o) (start_call r o w)
    | Invoke name args k =>
        match callee (store w !! name) args with
        | None => go (k (Rejected (not_a_function name))) w
        | Some body =>
            match fuel with
            | O => None
            | S fuel' =>
                match exec fuel' body (note_invoke name args w) with
                | Some (o, w') => go (k o) w'
                | None => None
                end
            end
        end
    end.

End Run.

(** ** A run in closed form *)

(** The definitions of this section only name the worlds and values that a
    run of an action goes through; [exec_action] below proves that [exec]
    produces them. *)
Section Summary.

Context `{printer : NumberPrinter}.
Variable endpoint : string.
Variable backend : list Request -> Request -> Outcome.

(** The end of the [catch] block that received [e]. *)
Definition caught (e : Val) (w : World) : Outcome * World :=
  match normalize_error e with
  | Normal err => (Resolved VUndefined, set_state (failed err) w)
  | Abrupt t => (Rejected t, w)
  end.

(** What the [try] block of the action [a] has in hand once its first
    wrapper call has settled, or once the template of its path has thrown,
    and the world at that point. *)
Definition attempt (a : ActionType) (args : list Val) (w : World) : Outcome * World :=
  match primary_request endpoint a args with
  | Normal r =>
      let o := backend (calls w) r in
      (o, start_call r o (set_state loading_started w))
  | Abrupt t => (Rejected t, set_state loading_started w)
  end.

(** The partial state that [fetchAll] merges once its call has resolved
    with [data]: the fetched list and paging, or the error of reading a
    property of a nullish [data]. *)
Definition fetchAll_update (data : Val) : gmap string Field :=
  match member data "objects", member data "current_page",
        member data "num_pages", member data "total_count" with
  | Some objects, Some current_page, Some num_pages, Some total_count =>
      fetched objects current_page num_pages total_count
  | _, _, _, _ => failed (cannot_read data "objects")
  end.

(** The value that the [catch] block of [fetchAll] receives when the call
    settles with [o]; [None] when [fetchAll] does not fail. *)
Definition fetchAll_failure (o : Outcome) : option Val :=
  match o with
  | Rejected e => Some e
  | Resolved data => if nullish data then Some (cannot_read data "objects") else None
  end.

(** The partial state that the action [a] merges when its call has resolved
    with [data] ([fetchAll] and [fetchOne]: the data and [loading] in one
    [set]). *)
Definition own_update (a : ActionType) (data : Val) : gmap string Field :=
  match a with
  | FetchAll => fetchAll_update data
  | FetchOne => {[ "item" := Data data; "loading" := Data (VBool false) ]}
  | Create | Update | Remove => loading_done
  end.

(** The value that the action returns when its call has resolved with
    [data]. *)
Definition returned (a : ActionType) (data : Val) : Val :=
  match a with
  | Create | Update => data
  | FetchAll | FetchOne | Remove => VUndefined
  end.

(** The action [a] up to its own last [set]: for [fetchAll] and [fetchOne]
    that is the whole action, for the other three what precedes the
    refetch. *)
Definition settled (a : ActionType) (args : list Val) (w : World) : Outcome * World :=
  match attempt a args w with
  | (Rejected e, w1) => caught e w1
  | (Resolved data, w1) => (Resolved (returned a data), set_state (own_update a data) w1)
  end.

(** [create], [update] and [remove] go on to [get().fetchAll()]. *)
Definition is_mutation (a : ActionType) : bool :=
  match a with
  | Create | Update | Remove => true
  | FetchAll | FetchOne => false
  end.

(** The whole action [a], when [get().fetchAll] is the store's own
    [fetchAll]. *)
Definition finished (a : ActionType) (args : list Val) (w : World) : Outcome * World :=
  match attempt a args w with
  | (Resolved data, w1) =>
      if is_mutation a
      then match settled FetchAll []
                   (note_invoke "fetchAll" [] (set_state loading_done w1)) with
           | (Resolved _, w3) => (Resolved (returned a data), w3)
           | (Rejected t, w3) => caught t w3
           end
      else settled a args w
  | (Rejected _, _) => settled a args w
  end.

(** What [String] throws when the [catch] block of an action converts the
    value that its call was rejected with; [None] if the block completes. *)
Definition catch_throws (o : Outcome) : option Val :=
  match o with
  | Rejected e =>
      match normalize_error e with
      | Normal _ => None
      | Abrupt t => Some t
      end
  | Resolved _ => None
  end.

(** What the action [a] rejects with: the [catch] block of the action throws
    when the action's own call was rejected with a value that is no error
    object and that [String] cannot convert. [None] if the action
    resolves. *)
Definition uncaught (a : ActionType) (args : list Val) (w : World) : option Val :=
  match primary_request endpoint a args with
  | Normal r => catch_throws (backend (calls w) r)
  | Abrupt _ => None
  end.

(** The partial state that is merged last when the refetch of a mutation
    has settled with [o]: by [fetchAll] itself, or, if the [catch] block of
    [fetchAll] threw, by the [catch] block of the mutation. *)
Definition refetch_update (o : Outcome) : gmap string Field :=
  match o with
  | Resolved data => fetchAll_update data
  | Rejected e =>
      failed (match normalize_error e with
              | Normal err => err
              | Abrupt t => t
              end)
  end.

(** The fields that the action [a] passes to [set] before any refetch. *)
Definition touched (a : ActionType) : list string :=
  match a with
  | FetchAll => ["items"; "meta"; "loading"; "error"]
  | FetchOne => ["item"; "loading"; "error"]
  | Create | Update | Remove => ["loading"; "error"]
  end.

(** A partial state passes to [set] no [error] field, or an error object. *)
Definition error_or_none (partial : gmap string Field) : Prop :=
  partial !! "error" = None \/
  exists err, partial !! "error" = Some (Data err) /\ instanceof_Error err = true.

(** Between two worlds only the fields [keys] of the state have changed. *)
Definition writes (keys : list string) (w w' : World) : Prop :=
  forall key, key ∉ keys -> store w' !! key = store w !! key.

End Summary.

(** ** The response that [fetchAll] expects *)

(** [interface ApiResponse { objects?: T[]; current_page?: number;
    num_pages?: number; total_count?: number }] *)
Record ApiResponse : Type := mkApiResponse {
  objects : option (list Val);
  current_page : option Z;
  num_pages : option Z;
  total_count : option Z
}.

Definition optional (key : string) (v : option Val) : list (string * Val) :=
  match v with
  | Some x => [(key, x)]
  | None => []
  end.

(** The object that carries exactly the fields a response has. *)
Definition response_body (r : ApiResponse) : Val :=
  VObj (optional "objects" (VArr <$> objects r) ++
        optional "current_page" (VNum <$> current_page r) ++
        optional "num_pages" (VNum <$> num_pages r) ++
        optional "total_count" (VNum <$> total_count r)).

(** The list that a response carries, empty when it has none. *)
Definition fetched_list (r : ApiResponse) : list Val := default [] (objects r).

(** The paging fallbacks, worded as the specification does: a field that is
    present is used, a field that is absent gets its fallback. *)
Definition if_present (field : option Z) (fallback : Z) : Z := default fallback field.

Definition meta_if_present (r : ApiResponse) : Val :=
  VObj [("currentPage", VNum (if_present (current_page r) 1));
        ("totalPages", VNum (if_present (num_pages r) 1));
        ("totalCount", VNum (if_present (total_count r)
                                        (Z.of_nat (length (fetched_list r)))))].

(** The fallbacks that a truthiness test gives: a field is used when it is
    present and not zero. *)
Definition if_nonzero (field : option Z) (fallback : Z) : Z :=
  match field with
  | Some n => if decide (n = 0) then fallback else n
  | None => fallback
  end.

Definition meta_if_nonzero (r : ApiResponse) : Val :=
  VObj [("currentPage", VNum (if_nonzero (current_page r) 1));
        ("totalPages", VNum (if_nonzero (num_pages r) 1));
        ("totalCount", VNum (if_nonzero (total_count r)
                                        (Z.of_nat (length (fetched_list r)))))].

(** ** The HTTP wrapper *)

Module ApiClient.

(** What the caller passes to the initialization call. *)
Record InitConfig : Type := mkInitConfig {
  baseURL : string;
  headers : option (gmap string string);
  withCredentials : option bool;
  others : gmap string Val
}.

(** The configured transport, the process-wide singleton. *)
Record Transport : Type := mkTransport {
  transport_baseURL : string;
  transport_headers : gmap string string;
  transport_withCredentials : bool;
  transport_others : gmap string Val
}.

Inductive Operation : Type := OpGet | OpPost | OpPut | OpDelete | OpPostFile.

(** One call of the underlying transport. *)
Record NetworkCall : Type := mkNetworkCall {
  via : Transport;
  operation : Operation;
  path : string;
  argument : Val;
  content_type : option string
}.

(** A failure of the transport: the server's response (status and body)
    if there was one, whether the request was sent, and the message. *)
Record Failure : Type := mkFailure {
  response : option (Z * Val);
  request_sent : bool;
  message : string
}.

Inductive Reply : Type :=
| Body (data : Val)
| Failed (f : Failure).

(** The four kinds of error of the wrapper, with what each one carries. *)
Inductive WrapperError : Type :=
| NotInitialized (message : string)
| ApiError (payload : Val)
| NetworkError (message : string)
| RequestSetupError (message : string).

Inductive Result : Type :=
| Fulfilled (data : Val)
| Failure_ (e : WrapperError).

Definition not_initialized_message : string :=
  "apiClient not initialized. Call initApiClient(config) first.".

Definition default_headers : gmap string string :=
  {[ "Content-Type" := "application/json" ]}.

(** Modelled from the spec: [src/api.ts] is not among the sources, only its
    test [src/api.test.ts] is. The initialization call replaces the
    singleton: the caller's headers are merged over the default header and
    win on a collision, the other options are forwarded, and requests carry
    credentials unless the caller says otherwise. *)
Definition initApiClient (config : InitConfig) (instance : option Transport)
  : option Transport :=
  Some (mkTransport (baseURL config)
                    (default ∅ (headers config) ∪ default_headers)
                    (default true (withCredentials config))
                    (others config)).

(** Modelled from the spec: the error normalization of the wrapper
    ([src/api.ts] is not among the sources). A failure that carries a
    server response becomes an ApiError with the response body; else one
    whose request was sent becomes a NetworkError with a fixed message;
    else a RequestSetupError whose message includes the original one. The
    messages are those that [src/api.test.ts] expects. *)
Definition handleError (f : Failure) : WrapperError :=
  match response f with
  | Some (_, body) => ApiError body
  | None =>
      if request_sent f
      then NetworkError "No response from server"
      else RequestSetupError ("Request failed: " +:+ message f)
  end.

(** Modelled from the spec: one operation of the wrapper ([src/api.ts] is
    not among the sources). Without a transport it fails at once and makes
    no network call; else it makes exactly one network call and returns the
    body of the reply or the normalized error. [postFile] sets a multipart
    content type. The result comes with the network calls made. *)
Definition perform (network : NetworkCall -> Reply) (instance : option Transport)
  (op : Operation) (p : string) (a : Val) : list NetworkCall * Result :=
  match instance with
  | None => ([], Failure_ (NotInitialized not_initialized_message))
  | Some transport =>
      let call :=
        mkNetworkCall transport op p a
          (match op with
           | OpPostFile => Some "multipart/form-data"
           | _ => None
           end) in
      ([call], match network call with
               | Body data => Fulfilled data
               | Failed f => Failure_ (handleError f)
               end)
  end.

(** What a caller does with the wrapper, in order. *)
Inductive Command : Type :=
| Initialize (config : InitConfig)
| Perform (op : Operation) (p : string) (a : Val).

Record Session : Type := mkSession {
  instance : option Transport;
  network_calls : list NetworkCall;
  results : list Result
}.

(** The process starts without a transport. *)
Definition start : Session := mkSession None [] [].

Definition step (network : NetworkCall -> Reply) (s : Session) (c : Command)
  : Session :=
  match c with
  | Initialize config =>
      mkSession (initApiClient config (instance s)) (network_calls s) (results s)
  | Perform op p a =>
      let '(made, result) := perform network (instance s) op p a in
      mkSession (instance s) (network_calls s ++ made) (results s ++ [result])
  end.

Definition run (network : NetworkCall -> Reply) (commands : list Command)
  (s : Session) : Session :=
  fold_left (step network) commands s.

(** The value that the promise of a failed operation is rejected with: the
    payload of an ApiError, an [Error] with the message otherwise. *)
Definition rejection (e : WrapperError) : Val :=
  match e with
  | ApiError payload => payload
  | NotInitialized m | NetworkError m | RequestSetupError m => VErr "Error" m
  end.

End ApiClient.

(** ** The store on top of the wrapper *)

Definition operation_of (v : Verb) : ApiClient.Operation :=
  match v with
  | GET => ApiClient.OpGet
  | POST => ApiClient.OpPost
  | PUT => ApiClient.OpPut
  | DELETE => ApiClient.OpDelete
  end.

(** The backend of a store whose [apiClient] is the wrapper, with the
    transport [instance] and the network [network]. *)
Definition wrapped (network : ApiClient.NetworkCall -> ApiClient.Reply)
  (instance : option ApiClient.Transport) : list Request -> Request -> Outcome :=
  fun _ r =>
    match snd (ApiClient.perform network instance (operation_of (verb r)) (url r)
                 (arg 0 (rest r))) with
    | ApiClient.Fulfilled data => Resolved data
    | ApiClient.Failure_ e => Rejected (ApiClient.rejection e)
    end.

(** ** The fixtures of the test suite *)

(** [const endpoint = '/test-items'] *)
Definition test_endpoint : string := "/test-items".

(** [jest.mock('./api', ...)]: each verb settles the same way on every call. *)
Definition mockedApiClient (get post put delete : Outcome)
  : list Request -> Request -> Outcome :=
  fun _ r =>
    match verb r with
    | GET => get
    | POST => post
    | PUT => put
    | DELETE => delete
    end.

(** The mocks that [beforeEach] installs, with the [get] and the [post] that
    a test sets. *)
Definition mocked (get post : Outcome) : list Request -> Request -> Outcome :=
  mockedApiClient get post (Resolved (VObj [])) (Resolved VUndefined).

(** A store made without an extension has no function but its own. *)
Definition no_extension : string -> list Val -> Prog :=
  fun _ _ => Return VUndefined.

(** [useTestStore = createGenericStore<TestItem>(endpoint)], before any call. *)
Definition useTestStore : World :=
  mkWorld (∅ ∪ (generic_actions ∪ generic_state)) [] [].

Definition item1 : Val := VObj [("id", VNum 1); ("name", VStr "Item 1")].
Definition item2 : Val := VObj [("id", VNum 2); ("name", VStr "Item 2")].
Definition createdItem : Val := VObj [("id", VNum 3); ("name", VStr "New Item")].
Definition newItemPayload : Val := VObj [("name", VStr "New Item")].

(** [{ objects: mockItems, current_page: 1, num_pages: 2, total_count: 20 }] *)
Definition mockResponse : ApiResponse :=
  mkApiResponse (Some [item1; item2]) (Some 1) (Some 2) (Some 20).

(** [{ objects: mockItems, total_count: 0 }] *)
Definition zeroCountResponse : ApiResponse :=
  mkApiResponse (Some [item1; item2]) None None (Some 0).

(** [{ objects: mockItems, current_page: 0, num_pages: 0, total_count: 0 }] *)
Definition zeroPagingResponse : ApiResponse :=
  mkApiResponse (Some [item1; item2]) (Some 0) (Some 0) (Some 0).

(** [new Error('Failed to fetch')] *)
Definition mockError : Val := VErr "Error" "Failed to fetch".

(** The test store after a [fetchOne] that found [item1]. *)
Definition storeWithItem : World :=
  mkWorld (<["item" := Data item1]> (store useTestStore)) [] [].

(** ** Callers of the store *)

(** The names of [GenericState<T>]: the only fields that the five actions
    pass to [set]. *)
Definition base_fields : list string :=
  ["items"; "item"; "loading"; "error"; "meta"].

(** The five action names hold the store's own actions. *)
Definition actions_intact (state : gmap string Field) : Prop :=
  forall a, state !! action_name a = Some (Func (Base a)).

(** A caller that awaits one action after the other:
    [await get().a1(...args1); await get().a2(...args2); ...] *)
Fixpoint script (steps : list (ActionType * list Val)) : Prog :=
  match steps with
  | [] => Return VUndefined
  | (a, args) :: others =>
      await_invoke (action_name a) args (fun _ => script others)
  end.

(** The action of a step makes its wrapper call: the template of its path
    does not throw. *)
Definition requestable `{NumberPrinter} (endpoint : string)
    (step : ActionType * list Val) : Prop :=
  exists r, primary_request endpoint step.1 step.2 = Normal r.

(** The extension of the test suite ([describe('extendStore')]):
    [(set, get) => ({ customState: 'initial', customAction: ... })] *)
Definition customExtension : gmap string Field :=
  {[ "customState" := Data (VStr "initial");
     "customAction" := Func (Ext "customAction") ]}.

(** [customAction: (value) => { extendedActionMock(value);
                                set({ customState: value }); }] *)
Definition customAction (value : Val) : Prog :=
  SetState {[ "customState" := Data value ]} (Return VUndefined).

Definition custom_bodies (name : string) (args : list Val) : Prog :=
  if String.eqb name "customAction" then customAction (arg 0 args)
  else Return VUndefined.

(** The README's extension action:
    [fetchFeaturedProduct: async () => {
       set({ loading: true });
       try {
         const featured = await apiClient.get<Product>('/products/featured');
         set({ featuredProduct: featured, loading: false });
       } catch (error) {
         set({ error: error instanceof Error ? error : new Error(String(error)),
               loading: false });
       } }] *)
Definition fetchFeaturedProduct `{NumberPrinter} : Prog :=
  SetState {[ "loading" := Data (VBool true) ]}
    (try_catch
       (await_call GET "/products/featured" [] (fun featured =>
        SetState {[ "featuredProduct" := Data featured;
                    "loading" := Data (VBool false) ]}
          (Return VUndefined)))
       on_error).


(** The wrapper rejects only with values that a [catch] block can store:
    error objects and values that [String] converts. *)
Definition catchable `{NumberPrinter}
    (backend : list Request -> Request -> Outcome) : Prop :=
  forall history r e,
    backend history r = Rejected e -> exists err, normalize_error e = Normal err.

(** A store whose extension returned [fetchAll: undefined]. *)
Definition storeWithoutFetchAll : World :=
  mkWorld (<["fetchAll" := Data VUndefined]> (store useTestStore)) [] [].

(** [useExtendedStore = createGenericStore<TestItem, ExtendedState>(endpoint,
    (set, get) => ({ customState: 'initial', customAction: ... }))] *)
Definition useExtendedStore : World :=
  mkWorld (customExtension ∪ (generic_actions ∪ generic_state)) [] [].



(** The printer that writes every integer with all its decimal digits. It
    is the runtime's [Number::toString] on the ids of the fixtures. *)
Definition decimal : NumberPrinter :=
  {| Number_toString := pretty; Number_toString_safe := fun _ _ => eq_refl |}.
(** * Properties *)

(** ** The factory *)

Lemma generic_lookup_action a :
  (generic_actions ∪ generic_state) !! action_name a = Some (Func (Base a)).
Proof. by destruct a. Qed.

Lemma extended_lookup (extension base : gmap string Field) key x :
  base !! key = Some x ->
  (extension ∪ base) !! key = Some (default x (extension !! key)).
Proof.
  intros H. destruct (extension !! key) as [y|] eqn:He; cbn [default].
  - by apply lookup_union_Some_l.
  - rewrite lookup_union_r by done. exact H.
Qed.

(** C1, amended: the factory reads no [actions] option. Its second argument
    is the optional [extendStore] function. Called without it, the factory
    produces a state that holds all five actions. Called with it, every one
    of the five names is present in the state and holds what the extension
    returned under that name, and else the store's own action. Called with
    anything else that is truthy, an options object for example, the factory
    throws and produces no state. *)
Theorem createGenericStore_has_all_actions endpoint extendStore :
  match extendStore with
  | Omitted =>
      exists state,
        createGenericStore endpoint Omitted = Normal state /\
        forall a, state !! action_name a = Some (Func (Base a))
  | Callback extension =>
      exists state,
        createGenericStore endpoint (Callback extension) = Normal state /\
        forall a, state !! action_name a =
                  Some (default (Func (Base a)) (extension !! action_name a))
  | NonFunction v =>
      if truthy v
      then createGenericStore endpoint (NonFunction v) =
           Abrupt (TypeError "extendStore is not a function")
      else exists state,
             createGenericStore endpoint (NonFunction v) = Normal state /\
             forall a, state !! action_name a = Some (Func (Base a))
  end.
Proof.
  destruct extendStore as [|extension|v]; cbn [createGenericStore].
  - eexists. split; [reflexivity|]. intros a.
    rewrite (left_id_L ∅ (∪)). apply generic_lookup_action.
  - eexists. split; [reflexivity|]. intros a.
    apply extended_lookup, generic_lookup_action.
  - destruct (truthy v); [reflexivity|].
    eexists. split; [reflexivity|]. intros a.
    rewrite (left_id_L ∅ (∪)). apply generic_lookup_action.
Qed.

(** ** The conversion to a string *)

Section StringFacts.

Context `{printer : NumberPrinter}.

Lemma all_strings_throws f l t :
  Forall (fun x => forall t, f x = Abrupt t -> t = cannot_convert) l ->
  all_strings f l = Abrupt t -> t = cannot_convert.
Proof.
  induction 1 as [|x rest Hx _ IH]; cbn [all_strings]; [discriminate|].
  destruct (f x) as [s|e] eqn:Hf.
  - destruct (all_strings f rest) as [others|e]; [discriminate|].
    intros [= <-]. by apply IH.
  - intros [= <-]. by apply Hx.
Qed.

Lemma Val_nested_ind (P : Val -> Prop) :
  P VUndefined -> P VNull -> (forall b, P (VBool b)) -> (forall n, P (VNum n)) ->
  (forall s, P (VStr s)) -> (forall l, Forall P l -> P (VArr l)) ->
  (forall fields, P (VObj fields)) -> (forall name message, P (VErr name message)) ->
  forall v, P v.
Proof.
  intros H1 H2 H3 H4 H5 H6 H7 H8. fix IH 1.
  intros [ | |b|n|s|l|fields|name message];
    [exact H1|exact H2|apply H3|apply H4|apply H5| |apply H7|apply H8].
  exact (H6 l ((fix go (l : list Val) : Forall P l :=
                  match l with
                  | [] => @List.Forall_nil Val P
                  | x :: rest => @List.Forall_cons Val P x rest (IH x) (go rest)
                  end) l)).
Qed.

(** [String] throws nothing but the TypeError of an object that cannot be
    converted. *)
Lemma js_String_throws v t : js_String v = Abrupt t -> t = cannot_convert.
Proof.
  revert t. induction v as [ | |b|n|s|l IH|fields|name message] using Val_nested_ind.
  all: intros t; cbn [js_String]; try discriminate.
  - by destruct b.
  - destruct (all_strings _ l) as [strings|e] eqn:Hl; [discriminate|].
    intros [= ->]. revert Hl. apply all_strings_throws.
    eapply Forall_impl; [exact IH|]. intros x Hx t'.
    destruct x; try discriminate; apply Hx.
  - destruct (has_key _ fields); [|discriminate]. by intros [= <-].
Qed.

Lemma normalize_error_throws e t :
  normalize_error e = Abrupt t -> t = cannot_convert.
Proof.
  unfold normalize_error.
  destruct e; try discriminate;
    (destruct (js_String _) as [s|e'] eqn:Hs; [discriminate|]);
    intros [= <-]; by apply (js_String_throws _ _ Hs).
Qed.

Lemma normalize_error_Error name message :
  normalize_error (VErr name message) = Normal (VErr name message).
Proof. reflexivity. Qed.

Lemma normalize_error_is_Error e err :
  normalize_error e = Normal err -> instanceof_Error err = true.
Proof.
  unfold normalize_error.
  destruct e; try (destruct (js_String _); [|discriminate]); by intros [= <-].
Qed.


(** An id that is a string or a number always gives a path. *)
Lemma item_path_of_id endpoint id :
  is_id id = true ->
  item_path endpoint id =
  Normal (endpoint +:+ "/" +:+ match id with
                               | VNum n => Number_toString n
                               | VStr s => s
                               | _ => ""
                               end).
Proof. by destruct id. Qed.

End StringFacts.

(** ** Runs of the actions *)

Ltac not_in :=
  repeat match goal with
         | H : _ ∉ _ :: _ |- _ => apply not_elem_of_cons in H; destruct H
         end;
  rewrite ?not_elem_of_cons;
  repeat split; first [done | discriminate | apply not_elem_of_nil].

Lemma touched_error_loading a key :
  key ∈ ["error"; "loading"] -> key ∈ touched a.
Proof. rewrite !elem_of_cons. destruct a; cbn [touched]; rewrite !elem_of_cons; tauto. Qed.

Lemma touched_base a key : key ∈ touched a -> key ∈ base_fields.
Proof.
  unfold base_fields. destruct a; cbn [touched]; rewrite !elem_of_cons; tauto.
Qed.

Lemma error_loading_base key : key ∈ ["error"; "loading"] -> key ∈ base_fields.
Proof. unfold base_fields. rewrite !elem_of_cons. tauto. Qed.

Section RunFacts.

Context `{printer : NumberPrinter}.
Variable endpoint : string.
Variable extension_body : string -> list Val -> Prog.
Variable backend : list Request -> Request -> Outcome.

Local Abbreviation exec := (exec endpoint extension_body backend).
Local Abbreviation callee := (callee endpoint extension_body).
Local Abbreviation attempt := (attempt endpoint backend).
Local Abbreviation settled := (settled endpoint backend).
Local Abbreviation finished := (finished endpoint backend).

Lemma exec_Return fuel v w : exec fuel (Return v) w = Some (Resolved v, w).
Proof. by destruct fuel. Qed.

Lemma exec_Throw fuel e w : exec fuel (Throw e) w = Some (Rejected e, w).
Proof. by destruct fuel. Qed.

Lemma exec_SetState fuel partial k w :
  exec fuel (SetState partial k) w = exec fuel k (set_state partial w).
Proof. by destruct fuel. Qed.

Lemma exec_GetState fuel k w :
  exec fuel (GetState k) w = exec fuel (k (store w)) w.
Proof. by destruct fuel. Qed.

Lemma exec_Call fuel r k w :
  exec fuel (Call r k) w =
  exec fuel (k (backend (calls w) r)) (start_call r (backend (calls w) r) w).
Proof. by destruct fuel. Qed.

Lemma exec_Invoke_body fuel name args k body w :
  callee (store w !! name) args = Some body ->
  exec (S fuel) (Invoke name args k) w =
  match exec fuel body (note_invoke name args w) with
  | Some (o, w') => exec (S fuel) (k o) w'
  | None => None
  end.
Proof. intros H. simpl. by rewrite H. Qed.

Lemma exec_Invoke_not_callable fuel name args k w :
  callee (store w !! name) args = None ->
  exec fuel (Invoke name args k) w =
  exec fuel (k (Rejected (not_a_function name))) w.
Proof. intros H. destruct fuel; simpl; by rewrite H. Qed.

Lemma exec_on_error fuel e w : exec fuel (on_error e) w = Some (caught e w).
Proof.
  unfold on_error, caught.
  destruct (normalize_error e); by rewrite ?exec_SetState, ?exec_Return, ?exec_Throw.
Qed.

Ltac run :=
  repeat first
    [ rewrite exec_SetState | rewrite exec_Call | rewrite exec_Return
    | rewrite exec_Throw | rewrite exec_GetState | rewrite exec_on_error
    | progress unfold await_call, await_invoke
    | progress cbn [try_catch settle calls store set_state start_call note_invoke] ].

Lemma lookup_set partial (s : gmap string Field) key :
  partial !! key = None -> (partial ∪ s) !! key = s !! key.
Proof. intros H. by apply lookup_union_r. Qed.

Lemma lookup_set_new partial (s : gmap string Field) key x :
  partial !! key = Some x -> (partial ∪ s) !! key = Some x.
Proof. intros H. by apply lookup_union_Some_l. Qed.

(** *** The closed form of a run *)

Lemma caught_thrown e t w1 w :
  caught e w1 = (Rejected t, w) ->
  w = w1 /\ normalize_error e = Abrupt t /\
  caught t w = (Resolved VUndefined, set_state (failed t) w).
Proof.
  unfold caught at 1. destruct (normalize_error e) as [err|t'] eqn:He; [discriminate|].
  intros [= -> ->]. split; [reflexivity|]. split; [reflexivity|].
  by rewrite (normalize_error_throws _ _ He).
Qed.

Lemma caught_resolved e result w1 w :
  caught e w1 = (Resolved result, w) ->
  result = VUndefined /\
  exists err, normalize_error e = Normal err /\ w = set_state (failed err) w1.
Proof.
  unfold caught. destruct (normalize_error e) as [err|t'] eqn:He; [|discriminate].
  intros [= <- <-]. split; [reflexivity|]. by exists err.
Qed.

Lemma exec_fetchAll fuel params w :
  exec fuel (fetchAll endpoint params) w = Some (settled FetchAll [params] w).
Proof.
  unfold settled, attempt, fetchAll. cbn [primary_request arg nth]. cbv zeta. run.
  destruct (backend _ _) as [data|e]; run; [|reflexivity].
  cbn [returned own_update]. unfold fetchAll_update, dot.
  destruct data; cbn [member]; run; reflexivity.
Qed.

Lemma exec_action_caught fuel a args w e w1 :
  attempt a args w = (Rejected e, w1) ->
  exec fuel (action endpoint a args) w = Some (caught e w1).
Proof.
  unfold attempt.
  destruct a; cbn [action primary_request];
    unfold fetchAll, fetchOne, create, update, remove, template; cbv zeta; run.
  all: try destruct (item_path endpoint (arg 0 args)) as [path|t]; run.
  all: try (destruct (backend _ _) as [data|e']; [discriminate|]; run).
  all: by intros [= -> <-].
Qed.

Lemma settled_fetchAll_no_argument w :
  settled FetchAll [VUndefined] w = settled FetchAll [] w.
Proof. reflexivity. Qed.

(** The rest of a mutation whose call resolved: [loading: false], then the
    store's own [fetchAll]. *)
Ltac refetch Hf :=
  run;
  rewrite exec_Invoke_body with (body := fetchAll endpoint VUndefined);
  [ rewrite exec_fetchAll, settled_fetchAll_no_argument;
    destruct (settled FetchAll [] _) as [[result|t] w3]; run; reflexivity
  | cbn [store set_state start_call]; rewrite !lookup_set by done; by rewrite Hf ].

Lemma exec_action fuel a args w :
  store w !! "fetchAll" = Some (Func (Base FetchAll)) ->
  exec (S fuel) (action endpoint a args) w = Some (finished a args w).
Proof.
  intros Hf. unfold finished.
  destruct (attempt a args w) as [[data|e] w1] eqn:Ha.
  2:{ rewrite (exec_action_caught _ _ _ _ _ _ Ha). unfold settled. by rewrite Ha. }
  revert Ha. unfold attempt.
  destruct a; cbn [action primary_request is_mutation].
  - intros _. apply exec_fetchAll.
  - unfold settled, attempt, fetchOne, template. cbn [primary_request].
    destruct (item_path endpoint (arg 0 args)) as [path|t]; [|discriminate].
    cbv zeta. intros [= Ho <-]. run. rewrite Ho. run. reflexivity.
  - unfold create. cbv zeta. intros [= Ho <-]. run. rewrite Ho. refetch Hf.
  - unfold update, template.
    destruct (item_path endpoint (arg 0 args)) as [path|t]; [|discriminate].
    cbv zeta. intros [= Ho <-]. run. rewrite Ho. refetch Hf.
  - unfold remove, template.
    destruct (item_path endpoint (arg 0 args)) as [path|t]; [|discriminate].
    cbv zeta. intros [= Ho <-]. run. rewrite Ho. refetch Hf.
Qed.

Lemma attempt_request a args w r :
  primary_request endpoint a args = Normal r ->
  attempt a args w =
  (backend (calls w) r,
   start_call r (backend (calls w) r) (set_state loading_started w)).
Proof. unfold attempt. by intros ->. Qed.

Lemma attempt_no_request a args w t :
  primary_request endpoint a args = Abrupt t ->
  attempt a args w = (Rejected t, set_state loading_started w).
Proof. unfold attempt. by intros ->. Qed.

Lemma store_attempt a args w :
  store (attempt a args w).2 = loading_started ∪ store w.
Proof. unfold attempt. by destruct (primary_request _ _ _). Qed.

Lemma primary_request_fetchAll args :
  primary_request endpoint FetchAll args =
  Normal (mkRequest GET endpoint [default_params (arg 0 args)]).
Proof. reflexivity. Qed.

Lemma primary_request_throws a args t :
  primary_request endpoint a args = Abrupt t -> t = cannot_convert.
Proof.
  unfold primary_request, item_path.
  destruct a; try discriminate;
    (destruct (js_String _) as [s|e] eqn:Hs; [discriminate|]);
    intros [= <-]; by apply (js_String_throws _ _ Hs).
Qed.

(** *** Which fields a run writes *)

Lemma writes_refl keys w : writes keys w w.
Proof. by intros key _. Qed.

Lemma writes_trans keys w1 w2 w3 :
  writes keys w1 w2 -> writes keys w2 w3 -> writes keys w1 w3.
Proof. intros H1 H2 key Hkey. by rewrite H2, H1. Qed.

Lemma writes_weaken keys keys' w w' :
  (forall key, key ∈ keys -> key ∈ keys') -> writes keys w w' -> writes keys' w w'.
Proof. intros Hsub H key Hkey. apply H. intros Hin. by apply Hkey, Hsub. Qed.

Lemma writes_set_state keys partial w :
  (forall key, key ∉ keys -> partial !! key = None) ->
  writes keys w (set_state partial w).
Proof. intros H key Hkey. cbn [store set_state]. by apply lookup_set, H. Qed.

Lemma writes_store keys w w' : store w' = store w -> writes keys w w'.
Proof. intros H key _. by rewrite H. Qed.

Lemma failed_other err key :
  key ≠ "error" -> key ≠ "loading" -> failed err !! key = None.
Proof.
  intros H1 H2. unfold failed.
  rewrite lookup_insert_ne by done. by apply lookup_singleton_ne.
Qed.

Lemma loading_started_other key :
  key ≠ "error" -> key ≠ "loading" -> loading_started !! key = None.
Proof.
  intros H1 H2. unfold loading_started.
  rewrite lookup_insert_ne by done. by apply lookup_singleton_ne.
Qed.

Lemma fetched_other objects current_page num_pages total_count key :
  key ≠ "items" -> key ≠ "meta" -> key ≠ "loading" ->
  fetched objects current_page num_pages total_count !! key = None.
Proof.
  intros H1 H2 H3. unfold fetched.
  rewrite !lookup_insert_ne by done. by apply lookup_singleton_ne.
Qed.

Lemma fetchAll_update_other data key :
  key ≠ "items" -> key ≠ "meta" -> key ≠ "loading" -> key ≠ "error" ->
  fetchAll_update data !! key = None.
Proof.
  intros H1 H2 H3 H4. unfold fetchAll_update.
  destruct data; cbn [member]; first [by apply failed_other | by apply fetched_other].
Qed.

Lemma own_update_other a data key :
  key ∉ touched a -> own_update a data !! key = None.
Proof.
  destruct a; cbn [touched own_update]; intros H.
  - apply fetchAll_update_other; not_in.
  - rewrite lookup_insert_ne by not_in. apply lookup_singleton_ne. not_in.
  - apply lookup_singleton_ne. not_in.
  - apply lookup_singleton_ne. not_in.
  - apply lookup_singleton_ne. not_in.
Qed.

Lemma caught_writes e w : writes ["error"; "loading"] w (caught e w).2.
Proof.
  unfold caught. destruct (normalize_error e); [|apply writes_refl].
  apply writes_set_state. intros key H. apply failed_other; not_in.
Qed.

Lemma attempt_writes a args w : writes ["error"; "loading"] w (attempt a args w).2.
Proof.
  intros key H. rewrite store_attempt. apply lookup_set, loading_started_other; not_in.
Qed.

(** A failing action writes [error] and [loading] only. *)
Lemma settled_failure_writes a args w e w1 :
  attempt a args w = (Rejected e, w1) ->
  writes ["error"; "loading"] w (settled a args w).2.
Proof.
  intros Ha. unfold settled. rewrite Ha.
  apply writes_trans with w1; [|apply caught_writes].
  pose proof (attempt_writes a args w) as H. by rewrite Ha in H.
Qed.

Lemma settled_writes a args w : writes (touched a) w (settled a args w).2.
Proof.
  destruct (attempt a args w) as [[data|e] w1] eqn:Ha.
  - unfold settled. rewrite Ha. cbn [snd].
    apply writes_trans with w1.
    + apply writes_weaken with ["error"; "loading"]; [apply touched_error_loading|].
      pose proof (attempt_writes a args w) as H. by rewrite Ha in H.
    + apply writes_set_state. intros key. apply own_update_other.
  - apply writes_weaken with ["error"; "loading"]; [apply touched_error_loading|].
    by apply (settled_failure_writes a args w e w1).
Qed.

Lemma finished_writes a args w : writes base_fields w (finished a args w).2.
Proof.
  assert (Hs : forall b args' w0, writes base_fields w0 (settled b args' w0).2).
  { intros b args' w0. apply writes_weaken with (touched b); [apply touched_base|].
    apply settled_writes. }
  unfold finished. destruct (attempt a args w) as [[data|e] w1] eqn:Ha; [|apply Hs].
  destruct (is_mutation a); [|apply Hs].
  assert (H1 : writes base_fields w w1).
  { apply writes_weaken with ["error"; "loading"].
    - apply error_loading_base.
    - pose proof (attempt_writes a args w) as H. by rewrite Ha in H. }
  set (w2 := note_invoke _ _ _).
  assert (H2 : writes base_fields w w2).
  { apply writes_trans with w1; [exact H1|].
    intros key Hkey. unfold w2. cbn [store note_invoke set_state].
    apply lookup_set, lookup_singleton_ne. unfold base_fields in Hkey. not_in. }
  pose proof (Hs FetchAll [] w2) as H3.
  destruct (settled FetchAll [] w2) as [[result|t] w3]; cbn [snd] in H3 |- *.
  - by apply writes_trans with w2.
  - apply writes_trans with w3; [by apply writes_trans with w2|].
    apply writes_weaken with ["error"; "loading"]; [|apply caught_writes].
    apply error_loading_base.
Qed.

(** *** Failures *)

Lemma exec_action_rejected fuel a args w r e :
  primary_request endpoint a args = Normal r ->
  backend (calls w) r = Rejected e ->
  exec fuel (action endpoint a args) w =
  Some (caught e (start_call r (Rejected e) (set_state loading_started w))).
Proof.
  intros Hr He. apply exec_action_caught. rewrite (attempt_request _ _ _ _ Hr).
  by rewrite He.
Qed.

Lemma caught_normal e err w :
  normalize_error e = Normal err ->
  caught e w = (Resolved VUndefined, set_state (failed err) w).
Proof. unfold caught. by intros ->. Qed.

Lemma caught_abrupt e t w :
  normalize_error e = Abrupt t -> caught e w = (Rejected t, w).
Proof. unfold caught. by intros ->. Qed.


Lemma fetchAll_failure_attempt params w e :
  fetchAll_failure (backend (calls w) (mkRequest GET endpoint [default_params params]))
    = Some e ->
  settled FetchAll [params] w =
  caught e (start_call (mkRequest GET endpoint [default_params params])
              (backend (calls w) (mkRequest GET endpoint [default_params params]))
              (set_state loading_started w)).
Proof.
  intros H. unfold settled, attempt. cbn [primary_request arg nth]. cbv zeta.
  destruct (backend _ _) as [data|e']; cbn [fetchAll_failure] in H.
  - destruct data; cbn [nullish] in H; try discriminate; by injection H as <-.
  - by injection H as <-.
Qed.

(** C6: when the [get] of [fetchAll] is rejected, or resolves with
    [undefined] or [null] so that reading the list throws, every field of
    the state other than [error] and [loading] is after the call what it was
    before, [items] and [meta] among them. If the failure is an error object
    or a value that [String] can convert, [fetchAll] resolves with the error
    in [error] and [loading] false; if not, the [catch] block throws before
    it writes, and [fetchAll] rejects with [error] still [null] and
    [loading] still true. *)
Theorem fetchAll_failure_keeps_items_and_meta fuel params w e :
  fetchAll_failure (backend (calls w) (mkRequest GET endpoint [default_params params]))
    = Some e ->
  exists o w',
    exec fuel (fetchAll endpoint params) w = Some (o, w') /\
    store w' !! "items" = store w !! "items" /\
    store w' !! "meta" = store w !! "meta" /\
    (forall key, key ≠ "error" -> key ≠ "loading" -> store w' !! key = store w !! key) /\
    match normalize_error e with
    | Normal err =>
        o = Resolved VUndefined /\
        store w' !! "error" = Some (Data err) /\
        store w' !! "loading" = Some (Data (VBool false))
    | Abrupt t =>
        o = Rejected t /\
        store w' !! "error" = Some (Data VNull) /\
        store w' !! "loading" = Some (Data (VBool true))
    end.
Proof.
  intros H.
  exists (settled FetchAll [params] w).1, (settled FetchAll [params] w).2.
  split; [rewrite exec_fetchAll; by destruct (settled _ _ _)|].
  rewrite (fetchAll_failure_attempt _ _ _ H).
  assert (Hother : forall key, key ≠ "error" -> key ≠ "loading" ->
            store (caught e (start_call (mkRequest GET endpoint [default_params params])
                     (backend (calls w) (mkRequest GET endpoint [default_params params]))
                     (set_state loading_started w))).2 !! key = store w !! key).
  { intros key H1 H2. rewrite caught_writes by not_in.
    cbn [store start_call set_state]. by apply lookup_set, loading_started_other. }
  split; [by apply Hother|]. split; [by apply Hother|]. split; [exact Hother|].
  unfold caught. destruct (normalize_error e) as [err|t]; cbn [fst snd store set_state start_call].
  - split; [reflexivity|]. split; by apply lookup_set_new.
  - split; [reflexivity|]. split; by apply lookup_set_new.
Qed.

(** *** [fetchAll] on a response of the expected shape *)

Lemma or_else_num n d :
  or_else (VNum n) (VNum d) = VNum (if decide (n = 0) then d else n).
Proof.
  unfold or_else, truthy. case_decide as H.
  - subst n. reflexivity.
  - apply Z.eqb_neq in H. by rewrite H.
Qed.

Lemma fetchAll_update_response r :
  fetchAll_update (response_body r) =
  {[ "items" := Data (VArr (fetched_list r));
     "meta" := Data (meta_if_nonzero r);
     "loading" := Data (VBool false) ]}.
Proof.
  destruct r as [[l|] [cp|] [np|] [tc|]];
    unfold fetchAll_update, response_body, fetched, meta_if_nonzero, fetched_list,
      length_or_zero;
    cbn [member objects current_page num_pages total_count optional fmap option_fmap
         option_map app assoc String.eqb Ascii.eqb Bool.eqb default];
    cbn [if_nonzero truthy member String.eqb Ascii.eqb Bool.eqb];
    rewrite ?or_else_num; reflexivity.
Qed.

Lemma settled_fetchAll_resolved params w data :
  backend (calls w) (mkRequest GET endpoint [default_params params]) = Resolved data ->
  settled FetchAll [params] w =
  (Resolved VUndefined,
   set_state (fetchAll_update data)
     (start_call (mkRequest GET endpoint [default_params params]) (Resolved data)
        (set_state loading_started w))).
Proof.
  intros H. unfold settled, attempt. cbn [primary_request arg nth]. cbv zeta.
  by rewrite H.
Qed.

Lemma exec_fetchAll_response fuel params w r :
  backend (calls w) (mkRequest GET endpoint [default_params params])
    = Resolved (response_body r) ->
  exec fuel (fetchAll endpoint params) w =
  Some (Resolved VUndefined,
        set_state {[ "items" := Data (VArr (fetched_list r));
                     "meta" := Data (meta_if_nonzero r);
                     "loading" := Data (VBool false) ]}
          (start_call (mkRequest GET endpoint [default_params params])
             (Resolved (response_body r)) (set_state loading_started w))).
Proof.
  intros H. rewrite exec_fetchAll, (settled_fetchAll_resolved _ _ _ H).
  by rewrite fetchAll_update_response.
Qed.

(** C2, amended: when the [get] of [fetchAll] resolves with a response
    object, [fetchAll] resolves, [items] is the response's list (the empty
    list when it has none), [loading] is false, and each paging field of
    [meta] is the response's field when that field is present and not
    zero; else [currentPage] and [totalPages] are 1 and [totalCount] is the
    length of the fetched list. *)
Theorem fetchAll_success_sets_items_and_meta fuel params w r :
  backend (calls w) (mkRequest GET endpoint [default_params params])
    = Resolved (response_body r) ->
  exists w',
    exec fuel (fetchAll endpoint params) w = Some (Resolved VUndefined, w') /\
    store w' !! "items" = Some (Data (VArr (default [] (objects r)))) /\
    store w' !! "meta" =
      Some (Data (VObj
        [("currentPage", VNum (match current_page r with
                               | Some n => if decide (n = 0) then 1 else n
                               | None => 1
                               end));
         ("totalPages", VNum (match num_pages r with
                              | Some n => if decide (n = 0) then 1 else n
                              | None => 1
                              end));
         ("totalCount", VNum (match total_count r with
                              | Some n =>
                                  if decide (n = 0)
                                  then Z.of_nat (length (default [] (objects r)))
                                  else n
                              | None => Z.of_nat (length (default [] (objects r)))
                              end))])) /\
    store w' !! "loading" = Some (Data (VBool false)).
Proof.
  intros H. eexists. split; [by apply exec_fetchAll_response|].
  cbn [store set_state]. repeat split; by apply lookup_set_new.
Qed.

(** C10: a paging field that is present but zero gets the fallback of an
    absent field. When the [get] of [fetchAll] resolves with a response
    object, [fetchAll] resolves with a [meta] in which [currentPage] is 1 if
    the response has [current_page: 0], [totalPages] is 1 if it has
    [num_pages: 0], and [totalCount] is the length of the fetched list if
    it has [total_count: 0]. *)
Theorem fetchAll_zero_paging_field_falls_back fuel params w r :
  backend (calls w) (mkRequest GET endpoint [default_params params])
    = Resolved (response_body r) ->
  exists w' currentPage totalPages totalCount,
    exec fuel (fetchAll endpoint params) w = Some (Resolved VUndefined, w') /\
    store w' !! "meta" =
      Some (Data (VObj [("currentPage", VNum currentPage);
                        ("totalPages", VNum totalPages);
                        ("totalCount", VNum totalCount)])) /\
    (current_page r = Some 0 -> currentPage = 1) /\
    (num_pages r = Some 0 -> totalPages = 1) /\
    (total_count r = Some 0 ->
     totalCount = Z.of_nat (length (default [] (objects r)))).
Proof.
  intros H. eexists _, _, _, _. split; [by apply exec_fetchAll_response|].
  cbn [store set_state]. split; [by apply lookup_set_new|].
  repeat split; by intros ->.
Qed.

Lemma pending_loading (s : gmap string Field) :
  (loading_started ∪ s) !! "loading" = Some (Data (VBool true)).
Proof. by apply lookup_set_new. Qed.

Lemma pending_error (s : gmap string Field) :
  (loading_started ∪ s) !! "error" = Some (Data VNull).
Proof. by apply lookup_set_new. Qed.

(** C4, amended: [fetchOne(id)], for an id from which the path can be built
    (every string and every number), first merges
    [loading: true, error: null], then calls [get] with the path
    [endpoint/id] and no other argument. On success it merges the response
    as [item] together with [loading: false], and resolves. On a failure
    that is an error object or a value that [String] can convert it merges
    the error and [loading: false], resolves, and leaves [item] as it was
    before the call. *)
Theorem fetchOne_sets_item_or_keeps_it fuel id path w :
  item_path endpoint id = Normal path ->
  let r := mkRequest GET path [] in
  let o := backend (calls w) r in
  let pending := loading_started ∪ store w in
  pending !! "loading" = Some (Data (VBool true)) /\
  pending !! "error" = Some (Data VNull) /\
  match o with
  | Resolved data =>
      exists w',
        exec fuel (fetchOne endpoint id) w = Some (Resolved VUndefined, w') /\
        calls w' = calls w ++ [r] /\
        trace w' = trace w ++
          [EvSet loading_started; EvCall r pending; EvSettle r o;
           EvSet {[ "item" := Data data; "loading" := Data (VBool false) ]}] /\
        store w' !! "item" = Some (Data data) /\
        store w' !! "error" = Some (Data VNull) /\
        store w' !! "loading" = Some (Data (VBool false))
  | Rejected e =>
      forall err,
        normalize_error e = Normal err ->
        exists w',
          exec fuel (fetchOne endpoint id) w = Some (Resolved VUndefined, w') /\
          calls w' = calls w ++ [r] /\
          trace w' = trace w ++
            [EvSet loading_started; EvCall r pending; EvSettle r o;
             EvSet {[ "error" := Data err; "loading" := Data (VBool false) ]}] /\
          store w' !! "item" = store w !! "item" /\
          store w' !! "error" = Some (Data err) /\
          store w' !! "loading" = Some (Data (VBool false))
  end.
Proof.
  intros Hp. cbv zeta.
  split; [apply pending_loading|]. split; [apply pending_error|].
  assert (Hr : primary_request endpoint FetchOne [id] = Normal (mkRequest GET path []))
    by (cbn [primary_request arg nth]; by rewrite Hp).
  destruct (backend (calls w) (mkRequest GET path [])) as [data|e] eqn:Ho.
  - eexists. split.
    { unfold fetchOne, template. rewrite Hp. run. rewrite Ho. run. reflexivity. }
    cbn [calls trace store set_state start_call].
    split; [reflexivity|]. split; [by rewrite <- !app_assoc|].
    split; [by apply lookup_set_new|].
    split; [rewrite lookup_set by done; apply pending_error|by apply lookup_set_new].
  - intros err Hn. eexists. split.
    { change (fetchOne endpoint id) with (action endpoint FetchOne [id]).
      rewrite (exec_action_rejected fuel FetchOne [id] w _ e Hr Ho).
      by rewrite (caught_normal _ _ _ Hn). }
    cbn [calls trace store set_state start_call].
    split; [reflexivity|]. split; [by rewrite <- !app_assoc|].
    split; [by rewrite !lookup_set by done|].
    split; by apply lookup_set_new.
Qed.

(** *** Mutations and their refetch *)

Lemma fetchAll_update_loading data :
  fetchAll_update data !! "loading" = Some (Data (VBool false)).
Proof. unfold fetchAll_update. by destruct data. Qed.

Lemma refetch_update_loading o :
  refetch_update o !! "loading" = Some (Data (VBool false)).
Proof. destruct o; [apply fetchAll_update_loading|reflexivity]. Qed.

Lemma finished_mutation a args w r data :
  is_mutation a = true ->
  primary_request endpoint a args = Normal r ->
  backend (calls w) r = Resolved data ->
  let r' := mkRequest GET endpoint [VObj []] in
  let o' := backend (calls w ++ [r]) r' in
  finished a args w =
  (Resolved (match catch_throws o' with
             | None => returned a data
             | Some _ => VUndefined
             end),
   set_state (refetch_update o')
     (start_call r' o'
        (set_state loading_started
           (note_invoke "fetchAll" []
              (set_state loading_done
                 (start_call r (Resolved data) (set_state loading_started w))))))).
Proof.
  intros Hm Hr Ho. cbv zeta. unfold finished.
  rewrite (attempt_request _ _ _ _ Hr), Ho, Hm.
  unfold settled, attempt. cbn [primary_request arg nth default_params]. cbv zeta.
  cbn [calls note_invoke set_state start_call].
  destruct (backend (calls w ++ [r]) _) as [data'|e'] eqn:Ho'; [reflexivity|].
  cbn [catch_throws refetch_update]. unfold caught at 1.
  destruct (normalize_error e') as [err|t] eqn:He; [reflexivity|].
  unfold caught. by rewrite (normalize_error_throws _ _ He).
Qed.

Lemma finished_unrefetched a args w r data :
  is_mutation a = false ->
  primary_request endpoint a args = Normal r ->
  backend (calls w) r = Resolved data ->
  finished a args w =
  (Resolved VUndefined,
   set_state (own_update a data)
     (start_call r (Resolved data) (set_state loading_started w))).
Proof.
  intros Hm Hr Ho. unfold finished, settled.
  rewrite (attempt_request _ _ _ _ Hr), Ho, Hm. by destruct a.
Qed.

Lemma finished_rejected a args w r e :
  primary_request endpoint a args = Normal r ->
  backend (calls w) r = Rejected e ->
  finished a args w =
  caught e (start_call r (Rejected e) (set_state loading_started w)).
Proof.
  intros Hr Ho. unfold finished, settled.
  by rewrite (attempt_request _ _ _ _ Hr), Ho.
Qed.

Lemma finished_no_request a args w t :
  primary_request endpoint a args = Abrupt t ->
  finished a args w =
  (Resolved VUndefined, set_state (failed t) (set_state loading_started w)).
Proof.
  intros Hr. unfold finished, settled. rewrite (attempt_no_request _ _ _ _ Hr).
  unfold caught. by rewrite (primary_request_throws _ _ _ Hr).
Qed.



(** *** How an action settles *)

Lemma exec_fetchOne fuel id w :
  exec fuel (fetchOne endpoint id) w = Some (settled FetchOne [id] w).
Proof.
  change (fetchOne endpoint id) with (action endpoint FetchOne [id]).
  destruct (attempt FetchOne [id] w) as [[data|e] w1] eqn:Ha.
  2:{ rewrite (exec_action_caught _ _ _ _ _ _ Ha). unfold settled. by rewrite Ha. }
  revert Ha. unfold settled, attempt. cbn [action primary_request arg nth].
  unfold fetchOne, template.
  destruct (item_path endpoint id) as [path|t]; [|discriminate].
  cbv zeta. intros [= Ho <-]. run. rewrite Ho. run. reflexivity.
Qed.

Lemma finished_outcome a args w :
  match uncaught endpoint backend a args w with
  | Some t =>
      (finished a args w).1 = Rejected t /\
      store (finished a args w).2 !! "error" = Some (Data VNull) /\
      store (finished a args w).2 !! "loading" = Some (Data (VBool true))
  | None =>
      (exists result, (finished a args w).1 = Resolved result) /\
      store (finished a args w).2 !! "loading" = Some (Data (VBool false))
  end.
Proof.
  unfold uncaught.
  destruct (primary_request endpoint a args) as [r|t] eqn:Hr.
  2:{ rewrite (finished_no_request _ _ _ _ Hr). cbn [fst snd store set_state].
      split; [by eexists|by apply lookup_set_new]. }
  destruct (backend (calls w) r) as [data|e] eqn:Ho; cbn [catch_throws].
  - destruct (is_mutation a) eqn:Hm.
    + rewrite (finished_mutation a args w r data Hm Hr Ho). cbn [fst snd store set_state].
      split; [by eexists|apply lookup_set_new, refetch_update_loading].
    + rewrite (finished_unrefetched a args w r data Hm Hr Ho). cbn [fst snd store set_state].
      split; [by eexists|]. apply lookup_set_new.
      destruct a; try discriminate Hm; [apply fetchAll_update_loading|reflexivity].
  - rewrite (finished_rejected a args w r e Hr Ho). unfold caught.
    destruct (normalize_error e) as [err|t]; cbn [fst snd store set_state start_call].
    + split; [by eexists|by apply lookup_set_new].
    + split; [reflexivity|]. split; [apply pending_error|apply pending_loading].
Qed.

(** *** Which fields an action writes *)

Lemma action_name_not_base_field a : action_name a ∉ base_fields.
Proof.
  unfold base_fields. rewrite !not_elem_of_cons.
  destruct a; cbn [action_name]; repeat split;
    first [discriminate | apply not_elem_of_nil].
Qed.

(** X1: an action writes no other field than [items], [item], [loading],
    [error] and [meta]. On a store whose [fetchAll] field is the store's own
    [fetchAll], whatever the backend does, the action settles, and every
    other field of the state, the fields of an extension and the five
    actions among them, is after the action what it was before. The action
    resolves, unless its own call was rejected with a value that is no error
    object and that [String] cannot convert: then it rejects with the
    TypeError of [String]. *)
Theorem action_writes_base_fields_only fuel a args w :
  store w !! "fetchAll" = Some (Func (Base FetchAll)) ->
  exists o w',
    exec (S fuel) (action endpoint a args) w = Some (o, w') /\
    (forall key, key ∉ base_fields -> store w' !! key = store w !! key) /\
    (forall b, store w' !! action_name b = store w !! action_name b) /\
    match uncaught endpoint backend a args w with
    | None => exists result, o = Resolved result
    | Some t => o = Rejected t
    end.
Proof.
  intros Hf. exists (finished a args w).1, (finished a args w).2.
  split; [rewrite exec_action by done; by destruct (finished a args w)|].
  split; [apply finished_writes|].
  split; [intros b; apply finished_writes, action_name_not_base_field|].
  pose proof (finished_outcome a args w) as H.
  destruct (uncaught _ _ _ _ _); tauto.
Qed.

(** X2: when the wrapper call of an action is rejected, the action changes
    [error] and [loading] and nothing else: [items], [item], [meta] and
    every other field keep their values. This holds for all five actions.
    If the rejected value is an error object or a value that [String] can
    convert, the action resolves with [undefined], [error] holds the error
    object and [loading] is false. If it is not, the [catch] block throws:
    the action rejects with the TypeError, [error] is [null] and [loading]
    is still true. *)
Theorem action_failure_changes_error_and_loading_only fuel a args w r e :
  primary_request endpoint a args = Normal r ->
  backend (calls w) r = Rejected e ->
  exists o w',
    exec fuel (action endpoint a args) w = Some (o, w') /\
    store w' !! "items" = store w !! "items" /\
    store w' !! "item" = store w !! "item" /\
    store w' !! "meta" = store w !! "meta" /\
    (forall key, key ≠ "error" -> key ≠ "loading" -> store w' !! key = store w !! key) /\
    match normalize_error e with
    | Normal err =>
        o = Resolved VUndefined /\
        store w' !! "error" = Some (Data err) /\
        store w' !! "loading" = Some (Data (VBool false))
    | Abrupt t =>
        o = Rejected t /\
        store w' !! "error" = Some (Data VNull) /\
        store w' !! "loading" = Some (Data (VBool true))
    end.
Proof.
  intros Hr Ho.
  set (w1 := start_call r (Rejected e) (set_state loading_started w)).
  exists (caught e w1).1, (caught e w1).2.
  split; [rewrite (exec_action_rejected _ _ _ _ _ _ Hr Ho); fold w1; by destruct (caught e w1)|].
  assert (Hother : forall key, key ≠ "error" -> key ≠ "loading" ->
            store (caught e w1).2 !! key = store w !! key).
  { intros key H1 H2. rewrite caught_writes by not_in.
    cbn [store start_call set_state]. by apply lookup_set, loading_started_other. }
  split; [by apply Hother|]. split; [by apply Hother|]. split; [by apply Hother|].
  split; [exact Hother|].
  unfold caught. destruct (normalize_error e) as [err|t];
    cbn [fst snd store set_state start_call].
  - split; [reflexivity|]. split; by apply lookup_set_new.
  - split; [reflexivity|]. split; by apply lookup_set_new.
Qed.

(** X3: [fetchAll] never writes [item], and [fetchOne] never writes [items]
    or [meta], whether their call resolves or is rejected. *)
Theorem fetch_actions_keep_the_other_data fuel x w :
  (exists o w',
      exec fuel (fetchAll endpoint x) w = Some (o, w') /\
      store w' !! "item" = store w !! "item") /\
  (exists o w',
      exec fuel (fetchOne endpoint x) w = Some (o, w') /\
      store w' !! "items" = store w !! "items" /\
      store w' !! "meta" = store w !! "meta").
Proof.
  split.
  - exists (settled FetchAll [x] w).1, (settled FetchAll [x] w).2.
    split; [rewrite exec_fetchAll; by destruct (settled _ _ _)|].
    apply settled_writes. cbn [touched]. not_in.
  - exists (settled FetchOne [x] w).1, (settled FetchOne [x] w).2.
    split; [rewrite exec_fetchOne; by destruct (settled _ _ _)|].
    split; apply settled_writes; cbn [touched]; not_in.
Qed.

(** *** What an action calls and returns *)

(** X4: the wrapper calls that an action makes, and how it settles, on a
    store whose [fetchAll] field is the store's own [fetchAll].
    [fetchAll(params)] calls [get(endpoint, params)], with [{}] for an
    [undefined] [params]; [create] posts the payload to [endpoint];
    [fetchOne], [update] and [remove] address the one path
    [endpoint + "/" + String(id)], and make no call at all when [String]
    cannot convert the id: the action then resolves with [undefined].
    [create], [update] and [remove] make a second call, [get(endpoint, {})],
    if and only if their first call resolved. No action makes any other
    call. When the first call resolved, [create] and [update] resolve with
    its response, unless the [catch] block of the refetch threw, and every
    other action resolves with [undefined]. When the first call was
    rejected, the action resolves with [undefined] if the rejected value is
    an error object or can be converted by [String], and else rejects with
    the TypeError of [String]. *)
Theorem action_calls_and_result fuel a args w :
  store w !! "fetchAll" = Some (Func (Base FetchAll)) ->
  exists o w',
    exec (S fuel) (action endpoint a args) w = Some (o, w') /\
    match primary_request endpoint a args with
    | Abrupt t =>
        a ∈ [FetchOne; Update; Remove] /\
        js_String (arg 0 args) = Abrupt t /\
        calls w' = calls w /\
        o = Resolved VUndefined
    | Normal first =>
        match a with
        | FetchAll =>
            first = mkRequest GET endpoint [match arg 0 args with
                                            | VUndefined => VObj []
                                            | _ => arg 0 args
                                            end]
        | FetchOne =>
            exists s, js_String (arg 0 args) = Normal s /\
                      first = mkRequest GET (endpoint +:+ "/" +:+ s) []
        | Create =>
            first = mkRequest POST endpoint [arg 0 args]
        | Update =>
            exists s, js_String (arg 0 args) = Normal s /\
                      first = mkRequest PUT (endpoint +:+ "/" +:+ s) [arg 1 args]
        | Remove =>
            exists s, js_String (arg 0 args) = Normal s /\
                      first = mkRequest DELETE (endpoint +:+ "/" +:+ s) []
        end /\
        let refetch := mkRequest GET endpoint [VObj []] in
        calls w' =
          calls w ++ first ::
            match a, backend (calls w) first with
            | (Create | Update | Remove), Resolved _ => [refetch]
            | _, _ => []
            end /\
        o =
          match backend (calls w) first with
          | Resolved data =>
              Resolved
                match a with
                | Create | Update =>
                    match catch_throws (backend (calls w ++ [first]) refetch) with
                    | None => data
                    | Some _ => VUndefined
                    end
                | FetchAll | FetchOne | Remove => VUndefined
                end
          | Rejected e =>
              match normalize_error e with
              | Normal _ => Resolved VUndefined
              | Abrupt t => Rejected t
              end
          end
    end.
Proof.
  intros Hf. exists (finished a args w).1, (finished a args w).2.
  split; [rewrite exec_action by done; by destruct (finished a args w)|].
  destruct (primary_request endpoint a args) as [first|t] eqn:Hr.
  - split.
    { revert Hr. unfold primary_request, item_path.
      destruct a; try (destruct (js_String (arg 0 args)) as [s|t]; [|discriminate]);
        intros [= <-]; first [by destruct (arg 0 args) | by exists s]. }
    cbv zeta. destruct (backend (calls w) first) as [data|e] eqn:Ho.
    + destruct (is_mutation a) eqn:Hm.
      * rewrite (finished_mutation a args w first data Hm Hr Ho).
        cbn [fst snd calls set_state start_call note_invoke].
        destruct a; try discriminate Hm; cbn [returned];
          (split; [by rewrite <- app_assoc|]);
          by destruct (catch_throws _).
      * rewrite (finished_unrefetched a args w first data Hm Hr Ho).
        cbn [fst snd calls set_state start_call].
        by destruct a; try discriminate Hm.
    + rewrite (finished_rejected a args w first e Hr Ho). unfold caught.
      destruct (normalize_error e) as [err|t];
        cbn [fst snd calls set_state start_call]; by destruct a.
  - rewrite (finished_no_request _ _ _ _ Hr). cbn [fst snd calls set_state].
    revert Hr. unfold primary_request, item_path.
    destruct a; try discriminate;
      (destruct (js_String (arg 0 args)) as [s|t']; [discriminate|]);
      intros [= <-]; (split; [rewrite !elem_of_cons; tauto|done]).
Qed.

(** *** The refetch of a mutation *)

Lemma mutation_is_mutation a :
  a ∈ [Create; Update; Remove] -> is_mutation a = true.
Proof.
  rewrite !elem_of_cons. intros [->|[->|[->|H]]]; try reflexivity.
  by apply elem_of_nil in H.
Qed.

Lemma lookup_before_refetch (s : gmap string Field) key :
  key ≠ "error" -> key ≠ "loading" ->
  (loading_started ∪ (loading_done ∪ (loading_started ∪ s))) !! key = s !! key.
Proof.
  intros H1 H2.
  rewrite lookup_set by by apply loading_started_other.
  rewrite lookup_set by by apply lookup_singleton_ne.
  by rewrite lookup_set by by apply loading_started_other.
Qed.

(** X5: on a store whose [fetchAll] field is the store's own [fetchAll], a
    [create], [update] or [remove] whose own call resolved but whose
    refetch is rejected still resolves. The failure shows in the state:
    [error] holds an error object, [loading] is false, and [items] and
    [meta] are what they were before the mutation. If the value that the
    refetch was rejected with is an error object or a value that [String]
    can convert, [error] holds its error and [create] and [update] resolve
    with the response of their call. If it is not, the [catch] block of
    [fetchAll] throws a TypeError into the [try] block of the mutation: the
    mutation resolves with [undefined] and [error] holds the TypeError. *)
Theorem mutation_with_failed_refetch fuel a args w r data e :
  store w !! "fetchAll" = Some (Func (Base FetchAll)) ->
  a ∈ [Create; Update; Remove] ->
  primary_request endpoint a args = Normal r ->
  backend (calls w) r = Resolved data ->
  backend (calls w ++ [r]) (mkRequest GET endpoint [VObj []]) = Rejected e ->
  exists w',
    exec (S fuel) (action endpoint a args) w =
      Some (Resolved match normalize_error e with
                     | Normal _ => if decide (a = Remove) then VUndefined else data
                     | Abrupt _ => VUndefined
                     end, w') /\
    store w' !! "error" =
      Some (Data match normalize_error e with
                 | Normal err => err
                 | Abrupt t => t
                 end) /\
    (match normalize_error e with
     | Normal err => instanceof_Error err = true
     | Abrupt t => t = cannot_convert
     end) /\
    store w' !! "loading" = Some (Data (VBool false)) /\
    store w' !! "items" = store w !! "items" /\
    store w' !! "meta" = store w !! "meta".
Proof.
  intros Hf Ha Hr Ho Ho'. eexists. split.
  { rewrite exec_action by done.
    rewrite (finished_mutation a args w r data (mutation_is_mutation a Ha) Hr Ho), Ho'.
    cbn [catch_throws]. do 3 f_equal.
    destruct (normalize_error e); [|reflexivity].
    revert Ha. rewrite !elem_of_cons.
    intros [->|[->|[->|H]]]; try reflexivity. by apply elem_of_nil in H. }
  cbn [store set_state start_call note_invoke refetch_update].
  split; [by apply lookup_set_new|].
  split.
  { destruct (normalize_error e) as [err|t] eqn:Hn.
    - by apply (normalize_error_is_Error e).
    - by apply (normalize_error_throws e). }
  split; [by apply lookup_set_new|].
  split; (rewrite lookup_set by done; by apply lookup_before_refetch).
Qed.

(** X6: on a store whose [fetchAll] field is the store's own [fetchAll],
    after a [create], [update] or [remove] whose own call resolved and
    whose refetch resolved with a response object, the state is that of the
    refetch: [items] is the list of the response, [meta] its paging with
    the fallbacks of [fetchAll], [error] is [null] and [loading] is false. *)
Theorem mutation_with_refetched_list fuel a args w first data r :
  store w !! "fetchAll" = Some (Func (Base FetchAll)) ->
  a ∈ [Create; Update; Remove] ->
  primary_request endpoint a args = Normal first ->
  backend (calls w) first = Resolved data ->
  backend (calls w ++ [first]) (mkRequest GET endpoint [VObj []])
    = Resolved (response_body r) ->
  exists result w',
    exec (S fuel) (action endpoint a args) w = Some (Resolved result, w') /\
    store w' !! "items" = Some (Data (VArr (default [] (objects r)))) /\
    store w' !! "meta" = Some (Data (meta_if_nonzero r)) /\
    store w' !! "error" = Some (Data VNull) /\
    store w' !! "loading" = Some (Data (VBool false)).
Proof.
  intros Hf Ha Hr Ho Ho'. eexists _, _. split.
  { rewrite exec_action by done.
    by rewrite (finished_mutation a args w first data (mutation_is_mutation a Ha) Hr Ho). }
  cbn [store set_state start_call note_invoke]. rewrite Ho'.
  cbn [refetch_update]. rewrite fetchAll_update_response.
  split; [by apply lookup_set_new|].
  split; [by apply lookup_set_new|].
  split; [|by apply lookup_set_new].
  rewrite lookup_set by done. by apply lookup_set_new.
Qed.

Lemma callee_not_a_function x args :
  is_function x = false -> callee x args = None.
Proof. by destruct x as [[v|f]|]. Qed.

(** X7: when the [fetchAll] field of the state is not a function, a
    [create], [update] or [remove] whose call resolved fails all the same:
    the call of [get().fetchAll()] throws inside the [try] block. The action
    resolves with [undefined], the response of its call is lost, [error]
    holds the TypeError, [loading] is false, and no [get] call is made. *)
Theorem mutation_without_fetchAll fuel a args w first data :
  is_function (store w !! "fetchAll") = false ->
  a ∈ [Create; Update; Remove] ->
  primary_request endpoint a args = Normal first ->
  backend (calls w) first = Resolved data ->
  exists w',
    exec fuel (action endpoint a args) w = Some (Resolved VUndefined, w') /\
    calls w' = calls w ++ [first] /\
    store w' !! "error" =
      Some (Data (VErr "TypeError" "get(...).fetchAll is not a function")) /\
    store w' !! "loading" = Some (Data (VBool false)) /\
    store w' !! "items" = store w !! "items".
Proof.
  intros Hf Ha Hr Ho.
  exists (set_state (failed (not_a_function "fetchAll"))
            (set_state loading_done
               (start_call first (Resolved data) (set_state loading_started w)))).
  split.
  { revert Ha Hr. rewrite !elem_of_cons.
    intros [->|[->|[->|H]]]; [| | |by apply elem_of_nil in H].
    all: cbn [action primary_request]; unfold create, update, remove, template.
    all: try (destruct (item_path endpoint (arg 0 args)) as [path|t]; [|discriminate]).
    all: intros [= <-]; cbv zeta; run; rewrite Ho; run.
    all: rewrite exec_Invoke_not_callable;
      [run; reflexivity
      |apply callee_not_a_function; cbn [store set_state start_call];
       by rewrite !lookup_set by done]. }
  cbn [store calls set_state start_call].
  split; [reflexivity|].
  split; [by apply lookup_set_new|].
  split; [by apply lookup_set_new|].
  by rewrite !lookup_set by done.
Qed.

(** X8: a response to [fetchAll] that is neither an object nor [null] nor
    [undefined] (a bare array, a string, a number, a boolean) counts as an
    empty page: [items] becomes the empty list, [meta] becomes page 1 of 1
    with a count of 0, [error] is [null] and [loading] is false. *)
Theorem fetchAll_non_object_response fuel params w data :
  backend (calls w) (mkRequest GET endpoint [default_params params]) = Resolved data ->
  nullish data = false ->
  (forall fields, data ≠ VObj fields) ->
  exists w',
    exec fuel (fetchAll endpoint params) w = Some (Resolved VUndefined, w') /\
    store w' !! "items" = Some (Data (VArr [])) /\
    store w' !! "meta" =
      Some (Data (VObj [("currentPage", VNum 1); ("totalPages", VNum 1);
                        ("totalCount", VNum 0)])) /\
    store w' !! "error" = Some (Data VNull) /\
    store w' !! "loading" = Some (Data (VBool false)).
Proof.
  intros Ho Hn Hobj. eexists. split.
  { by rewrite exec_fetchAll, (settled_fetchAll_resolved _ _ _ Ho). }
  cbn [store set_state start_call].
  assert (Hu : fetchAll_update data =
               fetched VUndefined VUndefined VUndefined VUndefined).
  { destruct data; try discriminate Hn; try reflexivity.
    by destruct (Hobj fields). }
  rewrite Hu.
  split; [by apply lookup_set_new|].
  split; [by apply lookup_set_new|].
  split; [|by apply lookup_set_new].
  rewrite lookup_set by done. by apply lookup_set_new.
Qed.

(** *** The [error] field *)

Lemma fetchAll_update_error data : error_or_none (fetchAll_update data).
Proof.
  unfold fetchAll_update.
  destruct data; cbn [member]; first [by left | right; by eexists].
Qed.

Lemma refetch_update_error o : error_or_none (refetch_update o).
Proof.
  destruct o as [data|e]; [apply fetchAll_update_error|].
  right. eexists. split; [reflexivity|].
  destruct (normalize_error e) as [err|t] eqn:Hn.
  - by apply (normalize_error_is_Error e).
  - by rewrite (normalize_error_throws e t Hn).
Qed.

Lemma error_after partial (s : gmap string Field) :
  error_or_none partial ->
  exists err,
    (partial ∪ (loading_started ∪ s)) !! "error" = Some (Data err) /\
    (err = VNull \/ instanceof_Error err = true).
Proof.
  intros [H|(err & H & He)].
  - exists VNull. split; [|by left]. rewrite lookup_set by done. apply pending_error.
  - exists err. split; [by apply lookup_set_new|by right].
Qed.

Lemma finished_error a args w :
  exists err,
    store (finished a args w).2 !! "error" = Some (Data err) /\
    (err = VNull \/ instanceof_Error err = true).
Proof.
  destruct (primary_request endpoint a args) as [r|t] eqn:Hr.
  2:{ rewrite (finished_no_request _ _ _ _ Hr). cbn [snd store set_state].
      apply error_after. right. exists t. split; [reflexivity|].
      by rewrite (primary_request_throws _ _ _ Hr). }
  destruct (backend (calls w) r) as [data|e] eqn:Ho.
  - destruct (is_mutation a) eqn:Hm.
    + rewrite (finished_mutation a args w r data Hm Hr Ho).
      cbn [snd store set_state start_call note_invoke].
      apply error_after, refetch_update_error.
    + rewrite (finished_unrefetched a args w r data Hm Hr Ho).
      cbn [snd store set_state start_call]. apply error_after.
      destruct a; try discriminate Hm; [apply fetchAll_update_error|by left].
  - rewrite (finished_rejected a args w r e Hr Ho). unfold caught.
    destruct (normalize_error e) as [err|t] eqn:Hn; cbn [snd store set_state start_call].
    + apply error_after. right. exists err. split; [reflexivity|].
      by apply (normalize_error_is_Error e).
    + exists VNull. split; [apply pending_error|by left].
Qed.

(** X9: on a store whose [fetchAll] field is the store's own [fetchAll],
    every action settles, whatever else the state held before and whatever
    value the wrapper resolved or rejected with, and [error] is then [null]
    or an error object. The action resolves and [loading] is false, unless
    the action's own call was rejected with a value that is no error object
    and that [String] cannot convert: then the action rejects with the
    TypeError of [String], [error] is [null] and [loading] is true. *)
Theorem error_is_null_or_an_Error fuel a args w :
  store w !! "fetchAll" = Some (Func (Base FetchAll)) ->
  exists o w' err,
    exec (S fuel) (action endpoint a args) w = Some (o, w') /\
    store w' !! "error" = Some (Data err) /\
    (err = VNull \/ instanceof_Error err = true) /\
    match uncaught endpoint backend a args w with
    | None =>
        (exists result, o = Resolved result) /\
        store w' !! "loading" = Some (Data (VBool false))
    | Some t =>
        o = Rejected t /\ t = cannot_convert /\ err = VNull /\
        store w' !! "loading" = Some (Data (VBool true))
    end.
Proof.
  intros Hf. destruct (finished_error a args w) as (err & H1 & H2).
  exists (finished a args w).1, (finished a args w).2, err.
  split; [rewrite exec_action by done; by destruct (finished a args w)|].
  split; [exact H1|]. split; [exact H2|].
  pose proof (finished_outcome a args w) as H.
  destruct (uncaught endpoint backend a args w) as [t|] eqn:Hu; [|exact H].
  destruct H as (Ho & He & Hl). split; [exact Ho|].
  split.
  { revert Hu. unfold uncaught. destruct (primary_request _ _ _) as [r|]; [|discriminate].
    destruct (backend _ _) as [|e]; [discriminate|]. cbn [catch_throws].
    destruct (normalize_error e) eqn:Hn; [discriminate|].
    intros [= <-]. by apply (normalize_error_throws e). }
  split; [congruence|exact Hl].
Qed.

(** *** One action after the other *)

Lemma length_calls_finished a args w :
  (length (calls (finished a args w).2) <= length (calls w) + 2)%nat /\
  (requestable endpoint (a, args) ->
   length (calls w) + 1 <= length (calls (finished a args w).2))%nat.
Proof.
  unfold requestable. cbn [fst snd].
  destruct (primary_request endpoint a args) as [r|t] eqn:Hr.
  2:{ rewrite (finished_no_request _ _ _ _ Hr). cbn [snd calls set_state].
      split; [lia|]. by intros [r [=]]. }
  destruct (backend (calls w) r) as [data|e] eqn:Ho.
  - destruct (is_mutation a) eqn:Hm.
    + rewrite (finished_mutation a args w r data Hm Hr Ho).
      cbn [snd calls set_state start_call note_invoke].
      rewrite !length_app. cbn [length]. lia.
    + rewrite (finished_unrefetched a args w r data Hm Hr Ho).
      cbn [snd calls set_state start_call].
      rewrite !length_app. cbn [length]. lia.
  - rewrite (finished_rejected a args w r e Hr Ho). unfold caught.
    destruct (normalize_error e); cbn [snd calls set_state start_call];
      rewrite !length_app; cbn [length]; lia.
Qed.

Lemma uncaught_catchable a args w :
  catchable backend -> uncaught endpoint backend a args w = None.
Proof.
  intros Hc. unfold uncaught. destruct (primary_request _ _ _) as [r|]; [|reflexivity].
  destruct (backend (calls w) r) as [|e] eqn:Ho; [reflexivity|]. cbn [catch_throws].
  destruct (Hc _ _ _ Ho) as [err ->]. reflexivity.
Qed.

Lemma exec_await_action fuel a args k w :
  actions_intact (store w) ->
  exec (S (S fuel)) (await_invoke (action_name a) args k) w =
  match finished a args (note_invoke (action_name a) args w) with
  | (Resolved v, w1) => exec (S (S fuel)) (k v) w1
  | (Rejected t, w1) => Some (Rejected t, w1)
  end.
Proof.
  intros Hi. unfold await_invoke.
  rewrite exec_Invoke_body with (body := action endpoint a args)
    by by rewrite (Hi a).
  rewrite exec_action by apply (Hi FetchAll).
  destruct (finished a args _) as [[v|t] w1]; cbn [settle]; [reflexivity|].
  apply exec_Throw.
Qed.

(** X10: actions compose. On a store whose five action fields hold the
    store's own actions, a caller that awaits any sequence of actions, one
    after the other, settles. Afterwards the five actions are still in
    place, every field outside [items], [item], [loading], [error] and
    [meta] is untouched, and at most two wrapper calls were made for each
    action. If the backend never rejects with a value that is no error
    object and that [String] cannot convert, every action resolves and
    [loading] is false if any action ran; if moreover [String] can convert
    the id of every step, each action made at least one wrapper call. *)
Theorem script_keeps_the_store_usable fuel steps w :
  actions_intact (store w) ->
  exists o w',
    exec (S (S fuel)) (script steps) w = Some (o, w') /\
    actions_intact (store w') /\
    (forall key, key ∉ base_fields -> store w' !! key = store w !! key) /\
    (length (calls w') <= length (calls w) + 2 * length steps)%nat /\
    (catchable backend ->
     o = Resolved VUndefined /\
     (steps <> [] -> store w' !! "loading" = Some (Data (VBool false))) /\
     (Forall (requestable endpoint) steps ->
      length (calls w) + length steps <= length (calls w'))%nat).
Proof.
  revert w. induction steps as [|[a args] others IH]; intros w Hi.
  - exists (Resolved VUndefined), w. cbn [script length]. rewrite exec_Return.
    repeat split; try done; lia.
  - cbn [script]. rewrite exec_await_action by done.
    set (w0 := note_invoke (action_name a) args w).
    pose proof (finished_writes a args w0) as Hother.
    pose proof (length_calls_finished a args w0) as [Hmost Hleast].
    pose proof (finished_outcome a args w0) as Hout.
    destruct (finished a args w0) as [o1 w1] eqn:Hfin.
    cbn [fst snd] in Hother, Hmost, Hleast, Hout.
    change (calls w0) with (calls w) in Hmost, Hleast.
    assert (Hother' : forall key, key ∉ base_fields -> store w1 !! key = store w !! key).
    { intros key Hkey. by rewrite Hother. }
    assert (Hi1 : actions_intact (store w1)).
    { intros b. rewrite Hother' by apply action_name_not_base_field. apply Hi. }
    destruct o1 as [v|t].
    + destruct (IH w1 Hi1) as (o & w' & H1 & H2 & H3 & H4 & H5).
      exists o, w'. split; [exact H1|]. split; [exact H2|].
      split; [intros key Hkey; rewrite H3 by done; by apply Hother'|].
      split; [cbn [length]; lia|].
      intros Hc. destruct (H5 Hc) as (H6 & H7 & H8).
      split; [exact H6|]. split.
      * intros _. destruct others as [|step others'].
        -- cbn [script] in H1. rewrite exec_Return in H1. injection H1 as _ <-.
           rewrite (uncaught_catchable a args w0 Hc) in Hout. apply Hout.
        -- by apply H7.
      * intros Hall. apply Forall_cons in Hall as [Hstep Hall].
        specialize (H8 Hall). specialize (Hleast Hstep). cbn [length]. lia.
    + exists (Rejected t), w1. split; [reflexivity|]. split; [exact Hi1|].
      split; [exact Hother'|]. split; [cbn [length]; lia|].
      intros Hc. rewrite (uncaught_catchable a args w0 Hc) in Hout.
      by destruct Hout as [[result [=]] _].
Qed.

End RunFacts.

(** ** The factory, the paths and the extensions *)

Section StoreFacts.

Context `{printer : NumberPrinter}.

(** X11: the state that the factory produces for an [extendStore] function
    is layered. A field that the extension returns is in the state with the
    extension's value, also when it has the name of a generic field or
    action; every other field is the generic one; and the state has no
    field beyond the five generic fields, the five actions and the fields of
    the extension. *)
Theorem createGenericStore_layers endpoint extension :
  exists state,
    createGenericStore endpoint (Callback extension) = Normal state /\
    (forall key x, extension !! key = Some x -> state !! key = Some x) /\
    (forall key, extension !! key = None ->
                 state !! key = (generic_actions ∪ generic_state) !! key) /\
    dom state =
      dom extension ∪ list_to_set (base_fields ++ map action_name all_actions).
Proof.
  eexists. split; [reflexivity|].
  split; [intros key x H; by apply lookup_union_Some_l|].
  split; [intros key H; by apply lookup_union_r|].
  rewrite dom_union_L. by f_equal.
Qed.

(** X12: the path of an item whose id is an integer below 2^53 in absolute
    value, the range in which a number holds every integer exactly and
    prints all its digits: the path is the endpoint, a slash and the decimal
    digits of the id. Two such ids that differ never address the same path,
    for any endpoint; an id and the string of its decimal digits address
    the same one. *)
Theorem item_path_of_numeric_ids endpoint n m :
  Z.abs n < 2 ^ 53 ->
  Z.abs m < 2 ^ 53 ->
  item_path endpoint (VNum n) = Normal (endpoint +:+ "/" +:+ pretty n) /\
  item_path endpoint (VStr (pretty n)) = item_path endpoint (VNum n) /\
  (item_path endpoint (VNum n) = item_path endpoint (VNum m) -> n = m).
Proof.
  intros Hn Hm. unfold item_path. cbn [js_String].
  rewrite (Number_toString_safe n Hn), (Number_toString_safe m Hm).
  split; [reflexivity|]. split; [reflexivity|].
  intros [= H].
  apply (inj (String.append endpoint)) in H.
  apply (inj (String.append "/")) in H.
  by apply (inj pretty) in H.
Qed.

(** X13: the extension of the test suite composes with the actions. On a
    store made with it, whose five action fields hold the store's own
    actions, [customAction(value)] followed by any of the five actions
    settles, and [customState] is still [value] afterwards. The action
    resolves and [loading] is false, unless the action's call was rejected
    with a value that is no error object and that [String] cannot convert:
    then the caller sees the TypeError and [loading] is still true. *)
Theorem customAction_survives_actions endpoint backend fuel value a args w :
  actions_intact (store w) ->
  store w !! "customAction" = Some (Func (Ext "customAction")) ->
  exists o w',
    exec endpoint custom_bodies backend (S (S fuel))
      (await_invoke "customAction" [value] (fun _ =>
       await_invoke (action_name a) args Return)) w
    = Some (o, w') /\
    store w' !! "customState" = Some (Data value) /\
    match uncaught endpoint backend a args w with
    | None =>
        (exists result, o = Resolved result) /\
        store w' !! "loading" = Some (Data (VBool false))
    | Some t =>
        o = Rejected t /\
        store w' !! "loading" = Some (Data (VBool true))
    end.
Proof.
  intros Hi Hc.
  unfold await_invoke at 1.
  rewrite exec_Invoke_body with (body := customAction value) by by rewrite Hc.
  unfold customAction. rewrite exec_SetState, exec_Return. cbn [settle].
  set (w1 := set_state _ _).
  assert (Hi1 : actions_intact (store w1)).
  { intros b. unfold w1. cbn [store set_state note_invoke].
    rewrite lookup_set; [apply Hi|]. apply lookup_singleton_ne. by destruct b. }
  rewrite exec_await_action by done.
  set (w0 := note_invoke (action_name a) args w1).
  pose proof (finished_writes endpoint backend a args w0) as Hw.
  pose proof (finished_outcome endpoint backend a args w0) as Hout.
  change (uncaught endpoint backend a args w0)
    with (uncaught endpoint backend a args w) in Hout.
  destruct (finished endpoint backend a args w0) as [o1 w'].
  cbn [fst snd] in Hw, Hout.
  assert (Hs : store w' !! "customState" = Some (Data value)).
  { rewrite Hw by (unfold base_fields; not_in).
    unfold w0, w1. cbn [store set_state note_invoke].
    apply lookup_set_new, lookup_singleton_eq. }
  destruct (uncaught endpoint backend a args w) as [t|].
  - destruct Hout as (-> & _ & Hl). by exists (Rejected t), w'.
  - destruct Hout as ([result ->] & Hl). exists (Resolved result), w'.
    rewrite exec_Return. split; [reflexivity|]. split; [exact Hs|].
    split; [by exists result|exact Hl].
Qed.

(** X14: the README's [fetchFeaturedProduct] makes one [get] call, to
    [/products/featured]. Unlike the five actions it does not clear [error]
    when it starts: after a call that resolved it resolves, [featuredProduct]
    is the response, [loading] is false and [error] is what it was before.
    After a call that was rejected, [featuredProduct] is what it was before;
    if the rejected value is an error object or a value that [String] can
    convert, the action resolves with the error in [error] and [loading]
    false, and if not, it rejects with the TypeError of [String], [error] is
    what it was before and [loading] is true. *)
Theorem fetchFeaturedProduct_keeps_error endpoint extension_body backend fuel w :
  let r := mkRequest GET "/products/featured" [] in
  exists o w',
    exec endpoint extension_body backend fuel fetchFeaturedProduct w = Some (o, w') /\
    calls w' = calls w ++ [r] /\
    match backend (calls w) r with
    | Resolved featured =>
        o = Resolved VUndefined /\
        store w' !! "featuredProduct" = Some (Data featured) /\
        store w' !! "error" = store w !! "error" /\
        store w' !! "loading" = Some (Data (VBool false))
    | Rejected e =>
        store w' !! "featuredProduct" = store w !! "featuredProduct" /\
        match normalize_error e with
        | Normal err =>
            o = Resolved VUndefined /\
            store w' !! "error" = Some (Data err) /\
            store w' !! "loading" = Some (Data (VBool false))
        | Abrupt t =>
            o = Rejected t /\
            store w' !! "error" = store w !! "error" /\
            store w' !! "loading" = Some (Data (VBool true))
        end
    end.
Proof.
  cbv zeta. unfold fetchFeaturedProduct, await_call.
  rewrite exec_SetState. cbn [try_catch]. rewrite exec_Call.
  cbn [calls set_state].
  destruct (backend (calls w) _) as [featured|e]; cbn [settle try_catch].
  - rewrite exec_SetState, exec_Return. eexists _, _. split; [reflexivity|].
    cbn [calls store set_state start_call].
    split; [reflexivity|]. split; [reflexivity|].
    split; [by apply lookup_set_new|].
    split; [by rewrite !lookup_set by done|by apply lookup_set_new].
  - rewrite exec_on_error. unfold caught.
    destruct (normalize_error e) as [err|t]; eexists _, _; (split; [reflexivity|]);
      cbn [calls store set_state start_call]; (split; [reflexivity|]).
    + split; [by rewrite !lookup_set by done|].
      split; [reflexivity|]. split; by apply lookup_set_new.
    + split; [by rewrite !lookup_set by done|].
      split; [reflexivity|].
      split; [by rewrite !lookup_set by done|by apply lookup_set_new].
Qed.

(** X15: a store on a wrapper that was never initialized. Every action
    resolves with [undefined] and leaves [loading] false. An action that
    makes its wrapper call makes that one call and no refetch, and leaves in
    [error] the wrapper's error, whose message names the missing
    initialization call. An action whose id [String] cannot convert makes
    no call, and leaves the TypeError of [String] in [error]. *)
Theorem store_on_uninitialized_wrapper endpoint extension_body network fuel a args w :
  exists w',
    exec endpoint extension_body (wrapped network None) fuel (action endpoint a args) w
    = Some (Resolved VUndefined, w') /\
    store w' !! "loading" = Some (Data (VBool false)) /\
    match primary_request endpoint a args with
    | Normal r =>
        calls w' = calls w ++ [r] /\
        store w' !! "error" =
          Some (Data (VErr "Error"
                        "apiClient not initialized. Call initApiClient(config) first."))
    | Abrupt t =>
        calls w' = calls w /\
        store w' !! "error" = Some (Data t)
    end.
Proof.
  destruct (primary_request endpoint a args) as [r|t] eqn:Hr.
  - eexists. split.
    { by apply (exec_action_rejected _ _ _ _ _ _ _ r
                  (VErr "Error" ApiClient.not_initialized_message)). }
    cbn [store calls set_state start_call].
    split; [by apply lookup_set_new|]. split; [reflexivity|by apply lookup_set_new].
  - pose proof (primary_request_throws _ _ _ _ Hr) as Ht. subst t.
    eexists. split.
    { by rewrite (exec_action_caught _ _ _ _ _ _ _ _ _
                    (attempt_no_request _ _ _ _ _ _ Hr)). }
    cbn [store calls set_state].
    split; [by apply lookup_set_new|]. split; [reflexivity|by apply lookup_set_new].
Qed.

(** X17: the store's error for a failure of the server. The wrapper rejects
    with the body of the response, which is no error object, so the store
    passes it to [String]. For a body that is an object without a field
    named [toString], an action that makes its call resolves and leaves in
    [error] an [Error] with the fixed message ["[object Object]"], whatever
    the body holds. For a body with such a field [String] throws: the action
    rejects with the TypeError, [error] is [null] and [loading] is true. *)
Theorem action_on_api_error_object endpoint extension_body network transport fuel a args w
      status fields r :
  (forall call, network call =
                ApiClient.Failed
                  (ApiClient.mkFailure (Some (status, VObj fields)) true "")) ->
  primary_request endpoint a args = Normal r ->
  exists o w',
    exec endpoint extension_body (wrapped network (Some transport)) fuel
      (action endpoint a args) w
    = Some (o, w') /\
    if has_key "toString" fields
    then o = Rejected (TypeError "Cannot convert object to primitive value") /\
         store w' !! "error" = Some (Data VNull) /\
         store w' !! "loading" = Some (Data (VBool true))
    else o = Resolved VUndefined /\
         store w' !! "error" = Some (Data (VErr "Error" "[object Object]")) /\
         store w' !! "loading" = Some (Data (VBool false)).
Proof.
  intros H Hr.
  assert (Ho : wrapped network (Some transport) (calls w) r = Rejected (VObj fields)).
  { unfold wrapped. cbn [ApiClient.perform snd]. by rewrite H. }
  destruct (has_key "toString" fields) eqn:Hk; eexists _, _.
  all: split;
    [rewrite (exec_action_rejected _ _ _ _ _ _ _ _ _ Hr Ho); unfold caught;
     cbn [normalize_error js_String]; rewrite Hk; reflexivity|].
  all: cbn [store set_state start_call].
  all: split; [reflexivity|]; split; by apply lookup_set_new.
Qed.

End StoreFacts.

(** ** The claims at the fixtures of the test suite *)

#[local] Existing Instance decimal.

Lemma createGenericStore_test_store :
  createGenericStore test_endpoint Omitted = Normal (store useTestStore).
Proof. reflexivity. Qed.

Lemma useTestStore_fetchAll :
  store useTestStore !! "fetchAll" = Some (Func (Base FetchAll)).
Proof. reflexivity. Qed.

(** The options object [{ actions: ['fetchAll', 'fetchOne'] }] selects nothing:
    passed to the factory, it is called as if it were [extendStore], and no
    state is produced. *)
Lemma createGenericStore_ignores_selection :
  ~ exists state,
      createGenericStore test_endpoint (NonFunction (options_object [FetchAll; FetchOne]))
        = Normal state /\
      exactly_selected [FetchAll; FetchOne] state.
Proof. intros (state & H & _). discriminate H. Qed.

(** A response with [total_count: 0] and two objects: [totalCount] becomes 2,
    the length of the list, and not the 0 that the response carries. *)
Lemma fetchAll_zero_total_count :
  exists w',
    exec test_endpoint no_extension
      (mocked (Resolved (response_body zeroCountResponse)) (Resolved (VObj [])))
      0 (fetchAll test_endpoint VUndefined) useTestStore
    = Some (Resolved VUndefined, w') /\
    store w' !! "meta" =
      Some (Data (VObj [("currentPage", VNum 1); ("totalPages", VNum 1);
                        ("totalCount", VNum 2)])) /\
    store w' !! "meta" <> Some (Data (meta_if_present zeroCountResponse)).
Proof.
  eexists. split; [reflexivity|].
  split; [reflexivity|]. vm_compute. discriminate.
Qed.


(** A [fetchOne] that fails on a store whose [item] is [item1]: [item] is
    still [item1] afterwards, not [null]. *)
Lemma fetchOne_failure_keeps_item :
  exists w',
    exec test_endpoint no_extension (mocked (Rejected mockError) (Resolved (VObj [])))
      0 (fetchOne test_endpoint (VNum 1)) storeWithItem
    = Some (Resolved VUndefined, w') /\
    store storeWithItem !! "item" = Some (Data item1) /\
    store w' !! "item" = Some (Data item1) /\
    store w' !! "item" <> Some (Data VNull).
Proof.
  eexists. split; [reflexivity|].
  split; [reflexivity|]. split; [reflexivity|]. vm_compute. discriminate.
Qed.



Lemma fetchAll_success_sets_items_and_meta_witness :
  mocked (Resolved (response_body mockResponse)) (Resolved (VObj []))
    (calls useTestStore) (mkRequest GET test_endpoint [default_params VUndefined])
    = Resolved (response_body mockResponse) /\
  exists w',
    exec test_endpoint no_extension
      (mocked (Resolved (response_body mockResponse)) (Resolved (VObj [])))
      0 (fetchAll test_endpoint VUndefined) useTestStore
    = Some (Resolved VUndefined, w') /\
    store w' !! "items" = Some (Data (VArr [item1; item2])) /\
    store w' !! "meta" =
      Some (Data (VObj [("currentPage", VNum 1); ("totalPages", VNum 2);
                        ("totalCount", VNum 20)])) /\
    store w' !! "loading" = Some (Data (VBool false)).
Proof.
  split; [reflexivity|].
  destruct (fetchAll_success_sets_items_and_meta (printer := decimal)
              test_endpoint no_extension
              (mocked (Resolved (response_body mockResponse)) (Resolved (VObj [])))
              0 VUndefined useTestStore mockResponse eq_refl)
    as (w' & H1 & H2 & H3 & H4).
  exists w'. by repeat split.
Defined.


Lemma fetchOne_sets_item_or_keeps_it_witness :
  item_path test_endpoint (VNum 1) = Normal "/test-items/1" /\
  exists w',
    exec test_endpoint no_extension (mocked (Resolved item1) (Resolved (VObj [])))
      0 (fetchOne test_endpoint (VNum 1)) useTestStore
    = Some (Resolved VUndefined, w') /\
    calls w' = [mkRequest GET "/test-items/1" []] /\
    store w' !! "item" = Some (Data item1).
Proof.
  split; [reflexivity|].
  pose proof (fetchOne_sets_item_or_keeps_it (printer := decimal)
              test_endpoint no_extension
                (mocked (Resolved item1) (Resolved (VObj [])))
                0 (VNum 1) "/test-items/1" useTestStore eq_refl) as H.
  cbv zeta in H. cbn [mocked mockedApiClient verb] in H.
  destruct H as (_ & _ & w' & H1 & H2 & _ & H3 & _).
  exists w'. by repeat split.
Defined.


Lemma fetchAll_failure_keeps_items_and_meta_witness :
  fetchAll_failure
    (mocked (Rejected mockError) (Resolved (VObj [])) (calls useTestStore)
       (mkRequest GET test_endpoint [default_params VUndefined])) = Some mockError /\
  exists w',
    exec test_endpoint no_extension (mocked (Rejected mockError) (Resolved (VObj [])))
      0 (fetchAll test_endpoint VUndefined) useTestStore
    = Some (Resolved VUndefined, w') /\
    store w' !! "items" = Some (Data (VArr [])) /\
    store w' !! "meta" = Some (Data initial_meta) /\
    store w' !! "error" = Some (Data mockError).
Proof.
  split; [reflexivity|].
  destruct (fetchAll_failure_keeps_items_and_meta (printer := decimal)
              test_endpoint no_extension
              (mocked (Rejected mockError) (Resolved (VObj [])))
              0 VUndefined useTestStore mockError eq_refl)
    as (o & w' & H1 & H2 & H3 & _ & H4).
  cbn [normalize_error mockError] in H4. destruct H4 as (-> & H4 & _).
  exists w'. by repeat split.
Defined.


Lemma fetchAll_zero_paging_field_falls_back_witness :
  mocked (Resolved (response_body zeroPagingResponse)) (Resolved (VObj []))
    (calls useTestStore) (mkRequest GET test_endpoint [default_params VUndefined])
    = Resolved (response_body zeroPagingResponse) /\
  exists w',
    exec test_endpoint no_extension
      (mocked (Resolved (response_body zeroPagingResponse)) (Resolved (VObj [])))
      0 (fetchAll test_endpoint VUndefined) useTestStore
    = Some (Resolved VUndefined, w') /\
    store w' !! "meta" =
      Some (Data (VObj [("currentPage", VNum 1); ("totalPages", VNum 1);
                        ("totalCount", VNum 2)])).
Proof.
  split; [reflexivity|].
  destruct (fetchAll_zero_paging_field_falls_back (printer := decimal)
              test_endpoint no_extension
              (mocked (Resolved (response_body zeroPagingResponse)) (Resolved (VObj [])))
              0 VUndefined useTestStore zeroPagingResponse eq_refl)
    as (w' & cp & tp & tc & H1 & H2 & H3 & H4 & H5).
  exists w'. split; [exact H1|].
  rewrite H2, (H3 eq_refl), (H4 eq_refl), (H5 eq_refl). reflexivity.
Defined.

(** ** More runs at the fixtures *)

Lemma useTestStore_intact : actions_intact (store useTestStore).
Proof. intros a. by destruct a. Qed.

Lemma useExtendedStore_intact : actions_intact (store useExtendedStore).
Proof. intros a. by destruct a. Qed.

Lemma mocked_catchable get post :
  catch_throws get = None -> catch_throws post = None -> catchable (mocked get post).
Proof.
  intros Hg Hp history [[] u l] e; unfold mocked, mockedApiClient; cbn [verb].
  - intros ->. cbn [catch_throws] in Hg.
    destruct (normalize_error e) as [err|]; [by exists err|discriminate].
  - intros ->. cbn [catch_throws] in Hp.
    destruct (normalize_error e) as [err|]; [by exists err|discriminate].
  - discriminate.
  - discriminate.
Qed.

Lemma action_writes_base_fields_only_witness :
  store useExtendedStore !! "fetchAll" = Some (Func (Base FetchAll)) /\
  exists result w',
    exec test_endpoint custom_bodies
      (mocked (Resolved (response_body mockResponse)) (Resolved createdItem))
      1 (action test_endpoint Create [newItemPayload]) useExtendedStore
    = Some (Resolved result, w') /\
    store w' !! "customState" = Some (Data (VStr "initial")).
Proof.
  split; [reflexivity|].
  destruct (action_writes_base_fields_only (printer := decimal)
              test_endpoint custom_bodies
              (mocked (Resolved (response_body mockResponse)) (Resolved createdItem))
              0 Create [newItemPayload] useExtendedStore eq_refl)
    as (o & w' & H1 & H2 & _ & H3).
  cbn [uncaught primary_request mocked mockedApiClient verb catch_throws] in H3.
  destruct H3 as [result ->].
  exists result, w'. split; [exact H1|].
  rewrite H2; [reflexivity|].
  unfold base_fields. rewrite !not_elem_of_cons.
  repeat split; first [discriminate | apply not_elem_of_nil].
Defined.

Lemma action_failure_changes_error_and_loading_only_witness :
  primary_request test_endpoint Create [newItemPayload]
    = Normal (mkRequest POST test_endpoint [newItemPayload]) /\
  mocked (Resolved (VObj [])) (Rejected mockError) (calls storeWithItem)
    (mkRequest POST test_endpoint [newItemPayload]) = Rejected mockError /\
  exists w',
    exec test_endpoint no_extension (mocked (Resolved (VObj [])) (Rejected mockError))
      0 (action test_endpoint Create [newItemPayload]) storeWithItem
    = Some (Resolved VUndefined, w') /\
    store w' !! "item" = Some (Data item1).
Proof.
  split; [reflexivity|]. split; [reflexivity|].
  destruct (action_failure_changes_error_and_loading_only (printer := decimal)
              test_endpoint no_extension
              (mocked (Resolved (VObj [])) (Rejected mockError))
              0 Create [newItemPayload] storeWithItem
              (mkRequest POST test_endpoint [newItemPayload]) mockError
              eq_refl eq_refl)
    as (o & w' & H1 & _ & H2 & _ & _ & H3).
  cbn [normalize_error mockError] in H3. destruct H3 as (-> & _).
  exists w'. by split.
Defined.

Lemma action_calls_and_result_witness :
  store useTestStore !! "fetchAll" = Some (Func (Base FetchAll)) /\
  exists w',
    exec test_endpoint no_extension
      (mocked (Resolved (VObj [])) (Resolved (VObj [])))
      1 (action test_endpoint Update [VNum 1; newItemPayload]) useTestStore
    = Some (Resolved (VObj []), w') /\
    calls w' = [mkRequest PUT "/test-items/1" [newItemPayload];
                mkRequest GET "/test-items" [VObj []]].
Proof.
  split; [reflexivity|].
  destruct (action_calls_and_result (printer := decimal) test_endpoint no_extension
              (mocked (Resolved (VObj [])) (Resolved (VObj [])))
              0 Update [VNum 1; newItemPayload] useTestStore eq_refl)
    as (o & w' & H1 & H2).
  change (primary_request test_endpoint Update [VNum 1; newItemPayload])
    with (Normal (mkRequest PUT "/test-items/1" [newItemPayload])) in H2.
  cbv zeta in H2. cbn [mocked mockedApiClient verb catch_throws] in H2.
  destruct H2 as (_ & H2 & ->).
  exists w'. by split.
Defined.

Lemma mutation_with_failed_refetch_witness :
  store useTestStore !! "fetchAll" = Some (Func (Base FetchAll)) /\
  Create ∈ [Create; Update; Remove] /\
  exists w',
    exec test_endpoint no_extension (mocked (Rejected mockError) (Resolved createdItem))
      1 (action test_endpoint Create [newItemPayload]) useTestStore
    = Some (Resolved createdItem, w') /\
    store w' !! "error" = Some (Data mockError) /\
    store w' !! "items" = Some (Data (VArr [])).
Proof.
  split; [reflexivity|].
  assert (Ha : Create ∈ [Create; Update; Remove])
    by (rewrite !elem_of_cons; auto).
  split; [exact Ha|].
  destruct (mutation_with_failed_refetch (printer := decimal) test_endpoint no_extension
              (mocked (Rejected mockError) (Resolved createdItem))
              0 Create [newItemPayload] useTestStore
              (mkRequest POST test_endpoint [newItemPayload]) createdItem mockError
              eq_refl Ha eq_refl eq_refl eq_refl)
    as (w' & H1 & H2 & _ & _ & H3 & _).
  exists w'. by repeat split.
Defined.

Lemma mutation_with_refetched_list_witness :
  store useTestStore !! "fetchAll" = Some (Func (Base FetchAll)) /\
  Remove ∈ [Create; Update; Remove] /\
  exists result w',
    exec test_endpoint no_extension
      (mocked (Resolved (response_body mockResponse)) (Resolved createdItem))
      1 (action test_endpoint Remove [VNum 3]) useTestStore
    = Some (Resolved result, w') /\
    store w' !! "items" = Some (Data (VArr [item1; item2])) /\
    store w' !! "error" = Some (Data VNull).
Proof.
  split; [reflexivity|].
  assert (Ha : Remove ∈ [Create; Update; Remove])
    by (rewrite !elem_of_cons; auto).
  split; [exact Ha|].
  destruct (mutation_with_refetched_list (printer := decimal) test_endpoint no_extension
              (mocked (Resolved (response_body mockResponse)) (Resolved createdItem))
              0 Remove [VNum 3] useTestStore
              (mkRequest DELETE "/test-items/3" []) VUndefined mockResponse
              eq_refl Ha eq_refl eq_refl eq_refl)
    as (result & w' & H1 & H2 & _ & H3 & _).
  exists result, w'. by repeat split.
Defined.

Lemma mutation_without_fetchAll_witness :
  is_function (store storeWithoutFetchAll !! "fetchAll") = false /\
  exists w',
    exec test_endpoint no_extension
      (mocked (Resolved (VObj [])) (Resolved createdItem))
      0 (action test_endpoint Create [newItemPayload]) storeWithoutFetchAll
    = Some (Resolved VUndefined, w') /\
    calls w' = [mkRequest POST test_endpoint [newItemPayload]].
Proof.
  split; [reflexivity|].
  destruct (mutation_without_fetchAll (printer := decimal) test_endpoint no_extension
              (mocked (Resolved (VObj [])) (Resolved createdItem))
              0 Create [newItemPayload] storeWithoutFetchAll
              (mkRequest POST test_endpoint [newItemPayload]) createdItem
              eq_refl ltac:(rewrite !elem_of_cons; auto) eq_refl eq_refl)
    as (w' & H1 & H2 & _).
  exists w'. by split.
Defined.

Lemma fetchAll_non_object_response_witness :
  nullish (VArr [item1; item2]) = false /\
  exists w',
    exec test_endpoint no_extension
      (mocked (Resolved (VArr [item1; item2])) (Resolved (VObj [])))
      0 (fetchAll test_endpoint VUndefined) useTestStore
    = Some (Resolved VUndefined, w') /\
    store w' !! "items" = Some (Data (VArr [])).
Proof.
  split; [reflexivity|].
  destruct (fetchAll_non_object_response (printer := decimal) test_endpoint no_extension
              (mocked (Resolved (VArr [item1; item2])) (Resolved (VObj [])))
              0 VUndefined useTestStore (VArr [item1; item2])
              eq_refl eq_refl ltac:(discriminate))
    as (w' & H1 & H2 & _).
  exists w'. by split.
Defined.

Lemma error_is_null_or_an_Error_witness :
  store useTestStore !! "fetchAll" = Some (Func (Base FetchAll)) /\
  exists result w' err,
    exec test_endpoint no_extension
      (mocked (Rejected (VNum 500)) (Resolved createdItem))
      1 (action test_endpoint Create [newItemPayload]) useTestStore
    = Some (Resolved result, w') /\
    store w' !! "error" = Some (Data err) /\
    (err = VNull \/ instanceof_Error err = true) /\
    store w' !! "loading" = Some (Data (VBool false)).
Proof.
  split; [reflexivity|].
  destruct (error_is_null_or_an_Error (printer := decimal) test_endpoint no_extension
              (mocked (Rejected (VNum 500)) (Resolved createdItem))
              0 Create [newItemPayload] useTestStore eq_refl)
    as (o & w' & err & H1 & H2 & H3 & H4).
  cbn [uncaught primary_request mocked mockedApiClient verb catch_throws] in H4.
  destruct H4 as ([result ->] & H4).
  by exists result, w', err.
Defined.

Lemma script_keeps_the_store_usable_witness :
  actions_intact (store useTestStore) /\
  exists w',
    exec test_endpoint no_extension
      (mocked (Resolved (response_body mockResponse)) (Resolved createdItem))
      2 (script [(Create, [newItemPayload]); (FetchOne, [VNum 3]); (Remove, [VNum 3])])
      useTestStore
    = Some (Resolved VUndefined, w') /\
    actions_intact (store w') /\
    store w' !! "loading" = Some (Data (VBool false)).
Proof.
  split; [apply useTestStore_intact|].
  destruct (script_keeps_the_store_usable (printer := decimal) test_endpoint no_extension
              (mocked (Resolved (response_body mockResponse)) (Resolved createdItem))
              0 [(Create, [newItemPayload]); (FetchOne, [VNum 3]); (Remove, [VNum 3])]
              useTestStore useTestStore_intact)
    as (o & w' & H1 & H2 & _ & _ & H5).
  destruct (H5 (mocked_catchable
                 (Resolved (response_body mockResponse)) (Resolved createdItem)
                 eq_refl eq_refl)) as (-> & H6 & _).
  exists w'. split; [exact H1|]. split; [exact H2|]. by apply H6.
Defined.

Lemma item_path_of_numeric_ids_witness :
  Z.abs 7 < 2 ^ 53 /\
  Z.abs 12 < 2 ^ 53 /\
  item_path test_endpoint (VNum 7) = Normal "/test-items/7" /\
  item_path test_endpoint (VStr "7") = item_path test_endpoint (VNum 7).
Proof.
  split; [reflexivity|]. split; [reflexivity|].
  destruct (item_path_of_numeric_ids (printer := decimal)
              test_endpoint 7 12 eq_refl eq_refl)
    as (H1 & H2 & _).
  split; [exact H1|exact H2].
Defined.

Lemma customAction_survives_actions_witness :
  actions_intact (store useExtendedStore) /\
  store useExtendedStore !! "customAction" = Some (Func (Ext "customAction")) /\
  exists result w',
    exec test_endpoint custom_bodies
      (mocked (Resolved (response_body mockResponse)) (Resolved createdItem))
      2 (await_invoke "customAction" [VStr "updated"] (fun _ =>
         await_invoke (action_name FetchAll) [] Return)) useExtendedStore
    = Some (Resolved result, w') /\
    store w' !! "customState" = Some (Data (VStr "updated")).
Proof.
  split; [apply useExtendedStore_intact|]. split; [reflexivity|].
  destruct (customAction_survives_actions (printer := decimal) test_endpoint
              (mocked (Resolved (response_body mockResponse)) (Resolved createdItem))
              0 (VStr "updated") FetchAll [] useExtendedStore
              useExtendedStore_intact eq_refl)
    as (o & w' & H1 & H2 & H3).
  cbn [uncaught primary_request mocked mockedApiClient verb catch_throws] in H3.
  destruct H3 as ([result ->] & _).
  by exists result, w'.
Defined.

Lemma action_on_api_error_object_witness :
  primary_request test_endpoint FetchOne [VNum 1]
    = Normal (mkRequest GET "/test-items/1" []) /\
  exists w',
    exec test_endpoint no_extension
      (wrapped (fun _ => ApiClient.Failed
                           (ApiClient.mkFailure
                              (Some (404, VObj [("message", VStr "Not Found")])) true ""))
               (Some (ApiClient.mkTransport "http://test-api.com/api"
                        ApiClient.default_headers true ∅)))
      0 (action test_endpoint FetchOne [VNum 1]) useTestStore
    = Some (Resolved VUndefined, w') /\
    store w' !! "error" = Some (Data (VErr "Error" "[object Object]")).
Proof.
  split; [reflexivity|].
  destruct (action_on_api_error_object (printer := decimal) test_endpoint no_extension
              (fun _ => ApiClient.Failed
                          (ApiClient.mkFailure
                             (Some (404, VObj [("message", VStr "Not Found")])) true ""))
              (ApiClient.mkTransport "http://test-api.com/api"
                 ApiClient.default_headers true ∅)
              0 FetchOne [VNum 1] useTestStore 404 [("message", VStr "Not Found")]
              (mkRequest GET "/test-items/1" [])
              (fun _ => eq_refl) eq_refl)
    as (o & w' & H1 & H2).
  cbn [has_key String.eqb Ascii.eqb Bool.eqb] in H2. destruct H2 as (-> & H2 & _).
  by exists w'.
Defined.
(** ** The wrapper *)

Module ApiClientFacts.
Import ApiClient.

Lemma run_without_transport network ops s :
  instance s = None ->
  let s' := run network (map (fun '(op, p, a) => Perform op p a) ops) s in
  instance s' = None /\
  network_calls s' = network_calls s /\
  results s' =
    results s ++ map (fun _ => Failure_ (NotInitialized not_initialized_message)) ops.
Proof.
  revert s. induction ops as [|[[op p] a] ops IH]; intros s Hs; cbn [map run fold_left].
  - by rewrite app_nil_r.
  - destruct (IH (step network s (Perform op p a))) as (H1 & H2 & H3).
    { cbn [step]. rewrite Hs. reflexivity. }
    unfold run in *. cbv zeta in *. rewrite H1, H2, H3.
    cbn [step]. rewrite Hs. cbn [perform network_calls results].
    rewrite app_nil_r, <- app_assoc. done.
Qed.

(** C8: before any initialization call, every operation of the wrapper
    ([get], [post], [put], [delete], [postFile]), with any path and
    argument, fails with the kind NotInitialized and a message that names
    the initialization call, and makes no network call. The same holds for
    every sequence of operations made from the start of the process
    without an initialization call. *)
Theorem uninitialized_wrapper_rejects network :
  (forall op p a,
      perform network (instance start) op p a =
      ([], Failure_ (NotInitialized
                       "apiClient not initialized. Call initApiClient(config) first."))) /\
  (forall ops,
      let s := run network (map (fun '(op, p, a) => Perform op p a) ops) start in
      network_calls s = [] /\
      length (results s) = length ops /\
      Forall (fun r => r = Failure_ (NotInitialized not_initialized_message))
             (results s)).
Proof.
  split; [reflexivity|].
  intros ops. cbv zeta.
  destruct (run_without_transport network ops start eq_refl) as (_ & H2 & H3).
  cbv zeta in *. rewrite H2, H3. cbn [network_calls results start app].
  split; [reflexivity|].
  split; [by rewrite length_map|].
  apply Forall_forall. intros r Hr. apply list_elem_of_In in Hr.
  apply in_map_iff in Hr. by destruct Hr as (? & <- & _).
Qed.

(** C9: on an initialized wrapper, an operation whose network call fails
    makes that one call and fails with: the kind ApiError and the body of
    the server's response, if the failure carries a response; else the kind
    NetworkError and the message "No response from server", if the request
    was sent; else the kind RequestSetupError and the message
    "Request failed: " followed by the original message. *)
Theorem wrapper_failure_kinds network transport op p a f :
  network (mkNetworkCall transport op p a
             (match op with OpPostFile => Some "multipart/form-data" | _ => None end))
    = Failed f ->
  exists call e,
    perform network (Some transport) op p a = ([call], Failure_ e) /\
    match response f with
    | Some (status, body) => e = ApiError body
    | None =>
        if request_sent f
        then e = NetworkError "No response from server"
        else e = RequestSetupError ("Request failed: " +:+ message f)
    end.
Proof.
  intros H. eexists _, _. cbn [perform]. rewrite H. split; [reflexivity|].
  unfold handleError. destruct (response f) as [[status body]|]; [reflexivity|].
  by destruct (request_sent f).
Qed.

Lemma wrapper_failure_kinds_witness :
  let transport := mkTransport "http://test-api.com/api" default_headers true ∅ in
  let network := fun _ : NetworkCall =>
    Failed (mkFailure (Some (404, VObj [("message", VStr "Not Found")])) true "") in
  exists call,
    perform network (Some transport) OpGet "/users" (VObj []) =
    ([call], Failure_ (ApiError (VObj [("message", VStr "Not Found")]))).
Proof.
  cbv zeta.
  destruct (wrapper_failure_kinds
              (fun _ => Failed (mkFailure (Some (404, VObj [("message", VStr "Not Found")]))
                                          true ""))
              (mkTransport "http://test-api.com/api" default_headers true ∅)
              OpGet "/users" (VObj [])
              (mkFailure (Some (404, VObj [("message", VStr "Not Found")])) true "")
              eq_refl)
    as (call & e & H1 & H2).
  cbn [response] in H2. subst e. by exists call.
Defined.

Lemma run_app network commands commands' s :
  run network (commands ++ commands') s = run network commands' (run network commands s).
Proof. apply fold_left_app. Qed.

Lemma run_with_transport network t ops s :
  instance s = Some t ->
  let s' := run network (map (fun '(op, p, a) => Perform op p a) ops) s in
  instance s' = Some t /\
  network_calls s' =
    network_calls s ++
    map (fun '(op, p, a) =>
           mkNetworkCall t op p a
             (match op with OpPostFile => Some "multipart/form-data" | _ => None end))
        ops /\
  length (results s') = (length (results s) + length ops)%nat.
Proof.
  revert s. induction ops as [|[[op p] a] ops IH]; intros s Hs; cbn [map run fold_left].
  - rewrite app_nil_r. cbn [length]. repeat split; first [done | lia].
  - destruct (IH (step network s (Perform op p a))) as (H1 & H2 & H3).
    { cbn [step]. rewrite Hs. reflexivity. }
    unfold run in *. cbv zeta in *. rewrite H1, H2, H3.
    cbn [step]. rewrite Hs. cbn [perform network_calls results].
    rewrite <- app_assoc, length_app. cbn [length app]. repeat split; first [done | lia].
Qed.

(** X16: an initialization replaces the transport whatever came before it.
    After any use of the wrapper and then an initialization with [config],
    every operation makes exactly one network call, through the transport
    made from [config] alone: its base URL, its headers merged over the
    default [Content-Type], credentials unless [config] says otherwise; only
    [postFile] sets a multipart content type. *)
Theorem initialization_replaces_transport network before config ops :
  let t := mkTransport (baseURL config)
                       (default ∅ (headers config) ∪ {[ "Content-Type" := "application/json" ]})
                       (default true (withCredentials config))
                       (others config) in
  let s0 := run network before start in
  let s := run network
             (before ++ Initialize config :: map (fun '(op, p, a) => Perform op p a) ops)
             start in
  instance s = Some t /\
  network_calls s =
    network_calls s0 ++
    map (fun '(op, p, a) =>
           mkNetworkCall t op p a
             (match op with OpPostFile => Some "multipart/form-data" | _ => None end))
        ops /\
  length (results s) = (length (results s0) + length ops)%nat.
Proof.
  cbv zeta. rewrite run_app.
  change (run network (Initialize config :: ?l) ?s0)
    with (run network l (step network s0 (Initialize config))).
  apply (run_with_transport network _ ops
           (step network (run network before start) (Initialize config))).
  reflexivity.
Qed.

End ApiClientFacts.
